(** * see: a human alternative to dir()

  A shallow embedding of the two inspection modules of the repository,
  [src/see.py] (module [SeePy] below) and [src/see/inspector.py]
  (module [Inspector]), over a small model of the Python runtime
  (module [Py]), followed by the properties of the inspection call. *)

From Stdlib Require Import List String Ascii Bool Arith ZArith Lia.
Import ListNotations.
Open Scope string_scope.

(** ** The Python runtime, as far as the inspection code observes it *)

Module Py.

(** Exception classes, up to the distinctions the handlers of the source
    make: [except AttributeError], [except (AttributeError, IndexError)],
    [except (AttributeError, Exception)].  [OtherException] stands for any
    other subclass of [Exception] (named), [NonException] for the classes
    that derive from [BaseException] only (KeyboardInterrupt, SystemExit). *)
Inductive exn : Type :=
| AttributeError
| IndexError
| OtherException (name : string)
| NonException (name : string).

Definition is_AttributeError (e : exn) : bool :=
  match e with AttributeError => true | _ => false end.

Definition is_IndexError (e : exn) : bool :=
  match e with IndexError => true | _ => false end.

(** [isinstance(e, Exception)] *)
Definition is_Exception (e : exn) : bool :=
  match e with NonException _ => false | _ => true end.

(** The outcome of an expression: a value, or a raised exception. *)
Inductive result (A : Type) : Type :=
| Ok (a : A)
| Raise (e : exn).
Arguments Ok {A} a.
Arguments Raise {A} e.

(** Values an attribute can resolve to.  [PyObject cls callable] is an
    instance of the class named [cls], a class without a [strip] method;
    [callable] is the verdict of [hasattr(v, '__call__')]. *)
Inductive pyval : Type :=
| PyNone
| PyStr (s : string)
| PyObject (cls : string) (callable : bool).

(** [hasattr(f, '__call__')]: neither [None] nor a string is callable; the
    lookup itself is taken not to raise. *)
Definition hasattr_call (f : pyval) : bool :=
  match f with
  | PyObject _ c => c
  | _ => false
  end.

(** A dict with string keys, in insertion order. *)
Definition dict : Type := list (string * pyval).

Fixpoint dict_get (d : dict) (k : string) : option pyval :=
  match d with
  | [] => None
  | (k', v) :: d' => if String.eqb k' k then Some v else dict_get d' k
  end.

(** An object under inspection, through the four builtins the code applies
    to it: [dir(obj)], [getattr(obj, name)], its truth value, and the
    verdicts of the predicates of the [inspect] module. *)
Record pyobj : Type := {
  py_dir : list string;
  py_getattr : string -> result pyval;
  py_truth : bool;
  py_inspect : string -> bool
}.

(** [name in names] on a list of strings *)
Definition str_in (name : string) (names : list string) : bool :=
  existsb (String.eqb name) names.

(** [a.startswith('_')] *)
Definition startswith_underscore (a : string) : bool :=
  match a with
  | String c _ => Ascii.eqb c "_"%char
  | EmptyString => false
  end.

(** [a.startswith('is')] *)
Definition startswith_is (a : string) : bool :=
  match a with
  | String c1 (String c2 _) => Ascii.eqb c1 "i"%char && Ascii.eqb c2 "s"%char
  | _ => false
  end.

(** [sep.join(parts)] *)
Fixpoint join (sep : string) (parts : list string) : string :=
  match parts with
  | [] => ""
  | [p] => p
  | p :: rest => p ++ sep ++ join sep rest
  end.

(** Whitespace as [str.strip()] sees it, on code points below 256: the
    byte strings of Python 2 strip tab, newline, vertical tab, form feed,
    carriage return and space; the text strings of Python 3 also strip the
    separators 28 to 31, NEL (133) and the no-break space (160). *)
Definition isspace (py3 : bool) (c : ascii) : bool :=
  let n := nat_of_ascii c in
  (Nat.leb 9 n && Nat.leb n 13) || Nat.eqb n 32
  || (py3 && ((Nat.leb 28 n && Nat.leb n 31) || Nat.eqb n 133 || Nat.eqb n 160)).

Fixpoint lstrip_list (py3 : bool) (l : list ascii) : list ascii :=
  match l with
  | [] => []
  | c :: l' => if isspace py3 c then lstrip_list py3 l' else l
  end.

(** [s.strip()] *)
Definition strip (py3 : bool) (s : string) : string :=
  string_of_list_ascii
    (rev (lstrip_list py3 (rev (lstrip_list py3 (list_ascii_of_string s))))).

(** Insertion sort by code point, and removal of duplicates: [dir()] of an
    instance yields the sorted set of the names of its [__dict__] and of
    its class. *)
Fixpoint insert_sorted (a : string) (l : list string) : list string :=
  match l with
  | [] => [a]
  | b :: l' => if String.leb a b then a :: l else b :: insert_sorted a l'
  end.

Definition sorted (l : list string) : list string :=
  fold_right insert_sorted [] l.

Fixpoint uniq (l : list string) : list string :=
  match l with
  | [] => []
  | a :: l' => if str_in a l' then uniq l' else a :: uniq l'
  end.

(** An instance of a class with the class attributes [cls] and the
    instance dictionary [d], with no [__dir__], [__getattr__] or
    descriptor of its own: lookup goes to the instance, then to the
    class, and fails with AttributeError. *)
Definition instance (cls : dict) (d : dict) : pyobj := {|
  py_dir := sorted (uniq (map fst d ++ map fst cls)%list);
  py_getattr := fun a =>
    match dict_get d a with
    | Some v => Ok v
    | None => match dict_get cls a with
              | Some v => Ok v
              | None => Raise AttributeError
              end
    end;
  py_truth := true;
  py_inspect := fun _ => false
|}.

(** Calls into the standard library that the filter stage makes, recorded
    in the order the interpreter makes them. *)
Inductive libcall : Type :=
| CallFnmatch (name pat : string)
| CallReCompile (pat : string)
| CallReSearch (pat name : string).

(** What lives outside a single call: the instance dictionaries of the two
    module-level default-argument objects ([_NO_OBJ] of see.py,
    [DEFAULT_ARG] of see/inspector.py), and the record of the library calls
    made so far, which no code reads: it is kept to state in which order
    and how often the library is called. *)
Record world : Type := {
  NO_OBJ_dict : dict;
  DEFAULT_ARG_dict : dict;
  trace : list libcall
}.

(** The interpreter and its standard library, as parameters of the model:
    the version triple of [sys.version_info], [fnmatch.fnmatch], the [re]
    module ([re_valid pat] says whether [re.compile(pat)] succeeds,
    [re_search pat name] whether the compiled pattern finds a match in
    [name]), [textwrap.fill], the names [dir(inspect)] lists, the class
    attributes every plain instance inherits from [object], [sys.ps1]
    ([None] when the attribute is missing) and the caller's frame locals
    [inspect.currentframe().f_back.f_locals]. *)
Record runtime : Type := {
  version_info : nat * nat * nat;
  fnmatch : string -> string -> bool;
  re_valid : string -> bool;
  re_search : string -> string -> bool;
  textwrap_fill : string -> nat -> string -> string -> string;
  inspect_dir : list string;
  object_attrs : dict;
  sys_ps1 : option string;
  f_locals : dict
}.

(** Computations: they read and write the world and may raise.  A raised
    exception keeps the writes made before it. *)
Definition M (A : Type) : Type := world -> result A * world.

Definition ret {A} (a : A) : M A := fun w => (Ok a, w).

Definition raise {A} (e : exn) : M A := fun w => (Raise e, w).

Definition bind {A B} (m : M A) (k : A -> M B) : M B :=
  fun w =>
    match m w with
    | (Ok a, w') => k a w'
    | (Raise e, w') => (Raise e, w')
    end.

Definition lift {A} (r : result A) : M A := fun w => (r, w).

Definition log (c : libcall) : M unit :=
  fun w => (Ok tt, {| NO_OBJ_dict := NO_OBJ_dict w;
                      DEFAULT_ARG_dict := DEFAULT_ARG_dict w;
                      trace := (trace w ++ [c])%list |}).

(** [tuple(filter(match, names))] for a predicate that runs in [M] *)
Fixpoint filterM (p : string -> M bool) (names : list string) : M (list string) :=
  match names with
  | [] => ret []
  | n :: rest =>
      bind (p n) (fun keep =>
      bind (filterM p rest) (fun kept =>
      ret (if keep then n :: kept else kept)))
  end.

(** The argument [obj] of [see]: the module-level default-argument object
    (what the parameter is bound to when the argument is omitted), or any
    other object. *)
Inductive arg : Type :=
| Default
| Target (o : pyobj).

End Py.

Export Py.

Declare Scope py_scope.
Delimit Scope py_scope with py.
Notation "x <- m ;; k" := (bind m (fun x => k))
(at level 61, m at next level, right associativity) : py_scope.
Notation "m ;;; k" := (bind m (fun _ => k))
(at level 61, right associativity) : py_scope.

Open Scope py_scope.

(** Tuples of strings: the operations a caller applies to the result. *)
Module Tuple.

Definition len (t : list string) : nat := List.length t.

(** [t[i]]: a negative index counts from the end, an index outside the
    tuple raises IndexError. *)
Definition getitem (t : list string) (i : Z) : result string :=
  let n := Z.of_nat (List.length t) in
  let j := if (i <? 0)%Z then (i + n)%Z else i in
  if ((j <? 0) || (n <=? j))%Z then Raise IndexError
  else match nth_error t (Z.to_nat j) with
       | Some s => Ok s
       | None => Raise IndexError
       end.

(** [iter(t)], as the list of the values it yields *)
Definition iter (t : list string) : list string := t.

(** [t1 == t2] *)
Fixpoint eq (t1 t2 : list string) : bool :=
  match t1, t2 with
  | [], [] => true
  | a :: t1', b :: t2' => String.eqb a b && eq t1' t2'
  | _, _ => false
  end.

(** A lexicographic [a >= b] on tuples of numbers, as used on
    [sys.version_info]. *)
Fixpoint ge (a b : list nat) : bool :=
  match a, b with
  | _, [] => true
  | [], _ :: _ => false
  | x :: a', y :: b' =>
      if Nat.ltb x y then false
      else if Nat.ltb y x then true
      else ge a' b'
  end.

End Tuple.

(** ** src/see.py *)

Module SeePy.
Section WithRuntime.

Variable rt : runtime.

(** [def regex_filter(names, pat)] *)
Definition regex_filter (names : list string) (pat : string) : M (list string) :=
  pat <- (log (CallReCompile pat) ;;;
          if re_valid rt pat then ret pat
          else raise (OtherException "re.error")) ;;
  let match_ (name : string) : M bool :=
    log (CallReSearch pat name) ;;; ret (re_search rt pat name) in
  filterM match_ names.

(** [def fn_filter(names, pat)] *)
Definition fn_filter (names : list string) (pat : string) : M (list string) :=
  let match_ (name : string) : M bool :=
    log (CallFnmatch name pat) ;;; ret (fnmatch rt name pat) in
  filterM match_ names.

(** [class SeeActions(tuple)]: a tuple that overrides [__repr__] only. *)
Record SeeActions : Type := mkSeeActions { as_tuple : list string }.

(** [SeeActions.__new__]: [tuple.__new__(self, actions or [])] *)
Definition SeeActions_new (actions : option (list string)) : SeeActions :=
  match actions with
  | None => mkSeeActions []
  | Some [] => mkSeeActions []
  | Some l => mkSeeActions l
  end.

(** [SeeActions.__repr__] *)
Definition SeeActions_repr (self : SeeActions) : string :=
  textwrap_fill rt (join "   " (as_tuple self)) 78 "  " "  ".

(** The operations inherited from [tuple]. *)
Definition SeeActions_getitem (self : SeeActions) (i : Z) : result string :=
  Tuple.getitem (as_tuple self) i.
Definition SeeActions_len (self : SeeActions) : nat := Tuple.len (as_tuple self).
Definition SeeActions_iter (self : SeeActions) : list string :=
  Tuple.iter (as_tuple self).
Definition SeeActions_eq (self other : SeeActions) : bool :=
  Tuple.eq (as_tuple self) (as_tuple other).

(** [class _LocalsProxy(object)]: the names of its class body, over those
    every class inherits from [object]. *)
Definition LocalsProxy_class : dict :=
  ([ ("__repr__", PyObject "function" true);
     ("__module__", PyStr "see");
     ("__dict__", PyObject "getset_descriptor" false);
     ("__weakref__", PyObject "getset_descriptor" false);
     ("__doc__", PyNone) ] ++ object_attrs rt)%list.

(** [_NO_OBJ = _LocalsProxy()]: the module-level object, whose instance
    dictionary is part of the world. *)
Definition NO_OBJ (w : world) : pyobj := instance LocalsProxy_class (NO_OBJ_dict w).

(** [obj.__dict__ = ...] on [_NO_OBJ] *)
Definition set_NO_OBJ_dict (d : dict) : M unit :=
  fun w => (Ok tt, {| NO_OBJ_dict := d;
                      DEFAULT_ARG_dict := DEFAULT_ARG_dict w;
                      trace := trace w |}).

Definition PY_300 : bool :=
  let '(major, minor, micro) := version_info rt in
  Tuple.ge [major; minor; micro] [3; 0].

Definition PY_301 : bool :=
  let '(major, minor, micro) := version_info rt in
  Tuple.ge [major; minor; micro] [3; 0; 1].

(** The operands of [filter] in the definition of [SYMBOLS]: the first
    component is a probe name, or [False] ([None] here) where the
    version test fails. *)
Definition and_ (b : bool) (s : string) : option string :=
  if b then Some s else None.

Definition and_or (b : bool) (s1 s2 : string) : option string :=
  if b then (if String.eqb s1 "" then Some s2 else Some s1) else Some s2.

Definition SYMBOLS_table : list (option string * string) := [
  (* callable *)
  (Some "__call__", "()");

  (* element/attribute access *)
  (Some "__getattr__", ".*");
  (Some "__getitem__", "[]");
  (Some "__setitem__", "[]");
  (Some "__delitem__", "[]");

  (* iteration *)
  (Some "__enter__", "with");
  (Some "__exit__", "with");
  (Some "__contains__", "in");

  (* operators *)
  (Some "__add__", "+");
  (Some "__radd__", "+");
  (Some "__iadd__", "+=");
  (Some "__sub__", "-");
  (Some "__rsub__", "-");
  (Some "__isub__", "-=");
  (Some "__mul__", "*");
  (Some "__rmul__", "*");
  (Some "__imul__", "*=");
  (and_ (negb PY_300) "__div__", "/");
  (and_ (negb PY_301) "__rdiv__", "/");
  (Some "__truediv__", "/");
  (Some "__rtruediv__", "/");
  (Some "__floordiv__", "//");
  (Some "__rfloordiv__", "//");
  (and_ (negb PY_300) "__idiv__", "/=");
  (Some "__itruediv__", "/=");
  (Some "__ifloordiv__", "//=");
  (Some "__mod__", "%");
  (Some "__rmod__", "%");
  (Some "__divmod__", "%");
  (Some "__imod__", "%=");
  (Some "__pow__", "**");
  (Some "__rpow__", "**");
  (Some "__ipow__", "**=");
  (Some "__lshift__", "<<");
  (Some "__rlshift__", "<<");
  (Some "__ilshift__", "<<=");
  (Some "__rshift__", ">>");
  (Some "__rrshift__", ">>");
  (Some "__irshift__", ">>=");
  (Some "__and__", "&");
  (Some "__rand__", "&");
  (Some "__iand__", "&=");
  (Some "__xor__", "^");
  (Some "__rxor__", "^");
  (Some "__ixor__", "^=");
  (Some "__or__", "|");
  (Some "__ror__", "|");
  (Some "__ior__", "|=");
  (Some "__pos__", "+obj");
  (Some "__neg__", "-obj");
  (Some "__invert__", "~");
  (Some "__lt__", "<");
  (and_ (negb PY_301) "__cmp__", "<");
  (Some "__le__", "<=");
  (and_ (negb PY_301) "__cmp__", "<=");
  (Some "__eq__", "==");
  (and_ (negb PY_301) "__cmp__", "==");
  (Some "__ne__", "!=");
  (and_ (negb PY_301) "__cmp__", "!=");
  (Some "__gt__", ">");
  (and_ (negb PY_301) "__cmp__", ">");
  (Some "__ge__", ">=");
  (and_ (negb PY_301) "__cmp__", ">=");

  (* built-in functions *)
  (Some "__abs__", "abs()");
  (and_or PY_300 "__bool__" "__nonzero__", "bool()");
  (Some "__complex__", "complex()");
  (and_ PY_300 "__dir__", "dir()");
  (Some "__divmod__", "divmod()");
  (Some "__rdivmod__", "divmod()");
  (Some "__float__", "float()");
  (Some "__hash__", "hash()");
  (Some "__doc__", "help()");
  (and_or PY_300 "__index__" "__hex__", "hex()");
  (Some "__int__", "int()");
  (Some "__iter__", "iter()");
  (Some "__len__", "len()");
  (and_ (negb PY_300) "__long__", "long()");
  (and_or PY_300 "__index__" "__oct__", "oct()");
  (Some "__repr__", "repr()");
  (Some "__reversed__", "reversed()");
  (and_ PY_300 "__round__", "round()");
  (Some "__str__", "str()");
  (and_ PY_300 "__unicode__", "unicode()")
].

(** [SYMBOLS = tuple(filter(lambda x: x[0], (...)))]: the entries whose
    first component is truthy. *)
Definition SYMBOLS : list (string * string) :=
  flat_map (fun x : option string * string =>
              match fst x with
              | Some var => if String.eqb var "" then [] else [(var, snd x)]
              | None => []
              end) SYMBOLS_table.

(** [obj.__doc__.strip()[0]] *)
Definition doc_first_char (obj : pyobj) : result ascii :=
  match py_getattr obj "__doc__" with
  | Raise e => Raise e
  | Ok (PyStr s) =>
      match strip PY_300 s with
      | String c _ => Ok c
      | EmptyString => Raise IndexError
      end
  | Ok _ => Raise AttributeError
  end.

(** [for var, symbol in SYMBOLS: ...], from the entries still to visit and
    the [actions] accumulated so far. *)
Fixpoint detect (obj : pyobj) (attrs : list string)
         (symbols : list (string * string)) (actions : list string)
  : result (list string) :=
  match symbols with
  | [] => Ok actions
  | (var, symbol) :: rest =>
      if negb (str_in var attrs) || str_in symbol actions then
        detect obj attrs rest actions
      else if String.eqb var "__doc__" then
        match doc_first_char obj with
        | Ok _ => detect obj attrs rest (actions ++ [symbol])%list
        | Raise e =>
            if is_AttributeError e || is_IndexError e
            then detect obj attrs rest actions
            else Raise e
        end
      else detect obj attrs rest (actions ++ [symbol])%list
  end.

(** [func = lambda f: hasattr(f, '__call__') and '()' or ''] *)
Definition func (f : pyval) : string :=
  if hasattr_call f then "()" else "".

(** [name = lambda a, f: ''.join((dot, a, func(f)))] *)
Definition name (dot : string) (a : string) (f : pyval) : string :=
  dot ++ a ++ func f.

(** [for attr in filter(lambda a: not a.startswith('_'), attrs): ...] *)
Fixpoint scan (obj : pyobj) (dot : string) (attrs : list string)
         (actions : list string) : result (list string) :=
  match attrs with
  | [] => Ok actions
  | attr :: rest =>
      match py_getattr obj attr with
      | Ok prop => scan obj dot rest (actions ++ [name dot attr prop])%list
      | Raise e =>
          if is_AttributeError e then scan obj dot rest actions
          else Raise e
      end
  end.

Definition visible (attrs : list string) : list string :=
  filter (fun a => negb (startswith_underscore a)) attrs.

(** [obj is _NO_OBJ] *)
Definition is_NO_OBJ (obj : arg) : bool :=
  match obj with Default => true | Target _ => false end.

(** [def see(obj=_NO_OBJ, pattern=None, r=None)] *)
Definition see (obj : arg) (pattern r : option string) : M SeeActions :=
  let locals := is_NO_OBJ obj in
  obj <- match obj with
         | Default =>
             set_NO_OBJ_dict (f_locals rt) ;;;
             fun w => (Ok (NO_OBJ w), w)
         | Target o => ret o
         end ;;
  let attrs := py_dir obj in
  let dot := if negb locals then "." else "" in
  actions <- (if negb locals then lift (detect obj attrs SYMBOLS [])
              else ret []) ;;
  actions <- lift (scan obj dot (visible attrs) actions) ;;
  actions <- match pattern with
             | Some p => fn_filter actions p
             | None => ret actions
             end ;;
  actions <- match r with
             | Some p => regex_filter actions p
             | None => ret actions
             end ;;
  ret (SeeActions_new (Some actions)).

End WithRuntime.
End SeePy.

(** ** src/see/inspector.py *)

Module Inspector.

(** An entry of [FEATURES] (from [.features]): its display symbol and its
    [match(obj, attrs)] method. *)
Record Feature : Type := {
  symbol : string;
  fmatch : pyobj -> list string -> bool
}.

(** What [inspector.py] imports from the sibling modules of its package:
    [output.column_width], [output.justify_token], [output.display_len],
    [output.display_name(name, obj, local)], [term.line_width()],
    [tools.filter_wildcard], [tools.filter_regex], and [FEATURES] and
    [PY3] of [features]. *)
Record package : Type := {
  column_width : list string -> nat;
  justify_token : string -> nat -> string;
  display_len : string -> nat;
  display_name : string -> pyval -> bool -> string;
  line_width : nat;
  filter_wildcard : list string -> string -> M (list string);
  filter_regex : list string -> string -> M (list string);
  FEATURES : list Feature;
  PY3 : bool
}.

Section WithRuntime.

Variable rt : runtime.
Variable pkg : package.

(** [SeeError()], the value that stands for an attribute that could not
    be resolved (from [.exceptions]). *)
Definition SeeError : pyval := PyObject "SeeError" false.

(** [class DefaultArg(object)] and [DEFAULT_ARG = DefaultArg()] *)
Definition DefaultArg_class : dict :=
  ([ ("__repr__", PyObject "function" true);
     ("__module__", PyStr "see.inspector");
     ("__dict__", PyObject "getset_descriptor" false);
     ("__weakref__", PyObject "getset_descriptor" false);
     ("__doc__", PyStr "A global instance of this class is used as the default argument.") ]
   ++ object_attrs rt)%list.

Definition DEFAULT_ARG (w : world) : pyobj :=
  instance DefaultArg_class (DEFAULT_ARG_dict w).

(** [class Namespace(object)]; [Namespace(namespace)] copies the mapping
    into the dictionary of a new instance. *)
Definition Namespace_class : dict :=
  ([ ("__init__", PyObject "function" true);
     ("__module__", PyStr "see.inspector");
     ("__dict__", PyObject "getset_descriptor" false);
     ("__weakref__", PyObject "getset_descriptor" false);
     ("__doc__", PyStr "An object that provides attribute access to its namespace.") ]
   ++ object_attrs rt)%list.

Definition Namespace (namespace : dict) : pyobj :=
  instance Namespace_class namespace.

(** [class SeeResult(tuple)] *)
Record SeeResult : Type := mkSeeResult { as_tuple : list string }.

(** [SeeResult.__new__]: [tuple.__new__(cls, actions or [])] *)
Definition SeeResult_new (actions : option (list string)) : SeeResult :=
  match actions with
  | None => mkSeeResult []
  | Some [] => mkSeeResult []
  | Some l => mkSeeResult l
  end.

(** [' ' * n] *)
Fixpoint spaces (n : nat) : string :=
  match n with
  | O => ""
  | S n' => String " "%char (spaces n')
  end.

(** The indent computed in [SeeResult.__repr__] from [sys.ps1]. *)
Definition repr_indent : string :=
  match sys_ps1 rt with
  | Some ps1 =>
      if String.eqb ps1 "" then "    "
      else
        let get_len := if PY3 pkg then display_len pkg else String.length in
        spaces (get_len ps1)
  | None => "    "
  end.

(** [SeeResult.__repr__] *)
Definition SeeResult_repr (self : SeeResult) : string :=
  let col_width := column_width pkg (as_tuple self) in
  let padded := map (fun tok => justify_token pkg tok col_width) (as_tuple self) in
  textwrap_fill rt (join "" padded) (line_width pkg) repr_indent repr_indent.

Definition SeeResult_getitem (self : SeeResult) (i : Z) : result string :=
  Tuple.getitem (as_tuple self) i.
Definition SeeResult_len (self : SeeResult) : nat := Tuple.len (as_tuple self).
Definition SeeResult_iter (self : SeeResult) : list string :=
  Tuple.iter (as_tuple self).
Definition SeeResult_eq (self other : SeeResult) : bool :=
  Tuple.eq (as_tuple self) (as_tuple other).

(** [INSPECT_FUNCS]: the name and the function of every attribute of the
    [inspect] module whose name starts with [is]. *)
Definition INSPECT_FUNCS : list (string * (pyobj -> bool)) :=
  map (fun name => (name, fun obj => py_inspect obj name))
      (filter startswith_is (inspect_dir rt)).

(** [for name, func in INSPECT_FUNCS: ...] *)
Fixpoint inspect_loop (obj : pyobj) (funcs : list (string * (pyobj -> bool)))
         (actions : list string) : list string :=
  match funcs with
  | [] => actions
  | (name, func) :: rest =>
      if func obj then inspect_loop obj rest (actions ++ [name])%list
      else inspect_loop obj rest actions
  end.

(** [for feature in FEATURES: ...] *)
Fixpoint feature_loop (obj : pyobj) (attrs : list string)
         (features : list Feature) (actions : list string) : list string :=
  match features with
  | [] => actions
  | feature :: rest =>
      if fmatch feature obj attrs
      then feature_loop obj attrs rest (actions ++ [symbol feature])%list
      else feature_loop obj attrs rest actions
  end.

(** [for attr in filter(lambda a: not a.startswith('_'), attrs): ...] *)
Fixpoint scan (obj : pyobj) (use_locals : bool) (attrs : list string)
         (actions : list string) : result (list string) :=
  match attrs with
  | [] => Ok actions
  | attr :: rest =>
      match py_getattr obj attr with
      | Ok prop =>
          let action := display_name pkg attr prop use_locals in
          scan obj use_locals rest (actions ++ [action])%list
      | Raise e =>
          if is_AttributeError e || is_Exception e then
            let prop := SeeError in
            let action := display_name pkg attr prop use_locals in
            scan obj use_locals rest (actions ++ [action])%list
          else Raise e
      end
  end.

Definition visible (attrs : list string) : list string :=
  filter (fun a => negb (startswith_underscore a)) attrs.

(** [obj is DEFAULT_ARG] *)
Definition is_DEFAULT_ARG (obj : arg) : bool :=
  match obj with Default => true | Target _ => false end.

(** [def see(obj=DEFAULT_ARG, pattern=None, r=None)] *)
Definition see (obj : arg) (pattern r : option string) : M SeeResult :=
  let use_locals := is_DEFAULT_ARG obj in
  let obj := match obj with
             | Default => Namespace (f_locals rt)
             | Target o => o
             end in
  let actions := [] in
  let attrs := py_dir obj in
  let actions :=
    if negb use_locals then
      let actions := inspect_loop obj INSPECT_FUNCS actions in
      feature_loop obj attrs (FEATURES pkg) actions
    else actions in
  actions <- lift (scan obj use_locals (visible attrs) actions) ;;
  actions <- match pattern with
             | Some p => filter_wildcard pkg actions p
             | None => ret actions
             end ;;
  actions <- match r with
             | Some p => filter_regex pkg actions p
             | None => ret actions
             end ;;
  ret (SeeResult_new (Some actions)).

End WithRuntime.
End Inspector.

(** ** The parts of the package that [inspector.py] imports, after the
     design document *)

Module SpecModel.

(** Appending a symbol unless it is already there, and the symbols of a list
    in the order of their first occurrence. *)
Definition keep_first (acc : list string) (s : string) : list string :=
  if str_in s acc then acc else (acc ++ [s])%list.

Definition first_wins (symbols : list string) : list string :=
  fold_left keep_first symbols [].

Definition is_SeeError (v : pyval) : bool :=
  match v with
  | PyObject cls _ => String.eqb cls "SeeError"
  | _ => false
  end.

(** Modelled from the spec: [output.display_name], which is not among the
    sources.  Section 4.3: an unresolvable attribute is displayed with an
    error mark instead of a suffix check; otherwise the token is the
    separator (none in local scope), the name, and the call marker when
    the value is callable. *)
Definition display_name (error_mark : string)
           (name : string) (obj : pyval) (local : bool) : string :=
  let prefix := if local then "" else "." in
  let suffix := if is_SeeError obj then error_mark
                else if hasattr_call obj then "()" else "" in
  prefix ++ name ++ suffix.

(** Modelled from the spec: [output.column_width], which is not among the
    sources.  Section 4.5: the length of the longest token plus a fixed
    padding. *)
Definition column_width (padding : nat) (tokens : list string) : nat :=
  fold_right Nat.max 0 (map String.length tokens) + padding.

(** Modelled from the spec: [output.justify_token], which is not among the
    sources.  Section 4.5: every token is padded to the column width, on
    the same side. *)
Definition justify_token (tok : string) (col_width : nat) : string :=
  tok ++ Inspector.spaces (col_width - String.length tok).

Section WithRuntime.

Variable rt : runtime.

Definition doc_ok (obj : pyobj) : bool :=
  match SeePy.doc_first_char rt obj with
  | Ok _ => true
  | Raise _ => false
  end.

(** A probe is present when the object lists it; the documentation probe
    also needs a documentation string that is not blank. *)
Definition probe_present (obj : pyobj) (attrs : list string) (var : string) : bool :=
  str_in var attrs && (negb (String.eqb var "__doc__") || doc_ok obj).

Definition probes_of (s : string) : list string :=
  map fst (filter (fun e : string * string => String.eqb (snd e) s)
                  (SeePy.SYMBOLS rt)).

(** Modelled from the spec: [features.FEATURES], which is not among the
    sources.  Sections 4.1 and 4.2: the registry of see.py, one feature
    per symbol in registry order, matched when one of its probes is. *)
Definition FEATURES : list Inspector.Feature :=
  map (fun s => {| Inspector.symbol := s;
                   Inspector.fmatch := fun obj attrs =>
                     existsb (probe_present obj attrs) (probes_of s) |})
      (first_wins (map snd (SeePy.SYMBOLS rt))).

(** Modelled from the spec: the modules [output], [term], [tools] and
    [features] of the package, which are not among the sources; the
    filters of section 4.4 are those of see.py. *)
Definition package (padding : nat) (error_mark : string) (width : nat)
  : Inspector.package := {|
  Inspector.column_width := column_width padding;
  Inspector.justify_token := justify_token;
  Inspector.display_len := String.length;
  Inspector.display_name := display_name error_mark;
  Inspector.line_width := width;
  Inspector.filter_wildcard := SeePy.fn_filter rt;
  Inspector.filter_regex := SeePy.regex_filter rt;
  Inspector.FEATURES := FEATURES;
  Inspector.PY3 := SeePy.PY_300 rt
|}.

End WithRuntime.
End SpecModel.

(** ** The shape of a result, for the statements below *)

Module Shape.

(** The world after the library calls [cs]. *)
Definition extend (w : world) (cs : list libcall) : world :=
  {| NO_OBJ_dict := NO_OBJ_dict w;
     DEFAULT_ARG_dict := DEFAULT_ARG_dict w;
     trace := (trace w ++ cs)%list |}.

(** The world after [_NO_OBJ.__dict__] has been bound to [d]. *)
Definition rebound (w : world) (d : dict) : world :=
  {| NO_OBJ_dict := d;
     DEFAULT_ARG_dict := DEFAULT_ARG_dict w;
     trace := trace w |}.

(** The entries of the registry whose probe is present on the object. *)
Definition matching (rt : runtime) (obj : pyobj) : list (string * string) :=
  filter (fun e : string * string =>
            SpecModel.probe_present rt obj (py_dir obj) (fst e))
         (SeePy.SYMBOLS rt).

(** The symbols of the matching entries, each at its first match. *)
Definition detected (rt : runtime) (obj : pyobj) : list string :=
  SpecModel.first_wins (map snd (matching rt obj)).

(** see.py: the tokens of the names that resolve, in the order given. *)
Definition attr_tokens (obj : pyobj) (dot : string) (attrs : list string)
  : list string :=
  flat_map (fun a => match py_getattr obj a with
                     | Ok v => [SeePy.name dot a v]
                     | Raise _ => []
                     end) attrs.

(** inspector.py: the value displayed for a name, and the tokens of a list
    of names. *)
Definition resolve (obj : pyobj) (a : string) : pyval :=
  match py_getattr obj a with
  | Ok v => v
  | Raise _ => Inspector.SeeError
  end.

Definition display_tokens (pkg : Inspector.package) (obj : pyobj)
           (local : bool) (attrs : list string) : list string :=
  map (fun a => Inspector.display_name pkg a (resolve obj a) local) attrs.

(** inspector.py: the names of the [inspect] predicates that hold of the
    object, and the symbols of the features that match it. *)
Definition inspect_names (rt : runtime) (obj : pyobj) : list string :=
  filter (py_inspect obj) (filter startswith_is (inspect_dir rt)).

Definition feature_symbols (pkg : Inspector.package) (obj : pyobj) : list string :=
  map Inspector.symbol
      (filter (fun f => Inspector.fmatch f obj (py_dir obj)) (Inspector.FEATURES pkg)).

(** The filter stage of see.py on the tokens [actions]. *)
Definition filter_stage (rt : runtime) (pattern r : option string)
           (actions : list string) : M SeePy.SeeActions :=
  actions <- match pattern with
             | Some p => SeePy.fn_filter rt actions p
             | None => ret actions
             end ;;
  actions <- match r with
             | Some p => SeePy.regex_filter rt actions p
             | None => ret actions
             end ;;
  ret (SeePy.SeeActions_new (Some actions)).

(** [s.startswith('.')] *)
Definition starts_with_dot (s : string) : bool :=
  match s with
  | String c _ => Ascii.eqb c "."%char
  | EmptyString => false
  end.

(** The object whose attributes a call scans, and the separator and the
    display mode of its tokens: the wrapper of the caller's locals when the
    target is omitted, the target otherwise. *)
Definition scanned_py (rt : runtime) (w : world) (a : arg) : pyobj :=
  match a with
  | Default => SeePy.NO_OBJ rt (rebound w (f_locals rt))
  | Target o => o
  end.

Definition scanned (rt : runtime) (a : arg) : pyobj :=
  match a with
  | Default => Inspector.Namespace rt (f_locals rt)
  | Target o => o
  end.

Definition dot_of (a : arg) : string :=
  match a with Default => "" | Target _ => "." end.

Definition local_of (a : arg) : bool :=
  match a with Default => true | Target _ => false end.

(** The object lists [__doc__], and the attribute is a string that is not
    empty once stripped. *)
Definition doc_present (rt : runtime) (obj : pyobj) : Prop :=
  str_in "__doc__" (py_dir obj) = true /\
  exists s, py_getattr obj "__doc__" = Ok (PyStr s) /\
            strip (SeePy.PY_300 rt) s <> "".

(** The same interpreter with other caller's locals or another prompt, and
    the same object with another truth value. *)
Definition with_locals (rt : runtime) (locals : dict) : runtime :=
  {| version_info := version_info rt;
     fnmatch := fnmatch rt;
     re_valid := re_valid rt;
     re_search := re_search rt;
     textwrap_fill := textwrap_fill rt;
     inspect_dir := inspect_dir rt;
     object_attrs := object_attrs rt;
     sys_ps1 := sys_ps1 rt;
     f_locals := locals |}.

Definition with_ps1 (rt : runtime) (ps1 : option string) : runtime :=
  {| version_info := version_info rt;
     fnmatch := fnmatch rt;
     re_valid := re_valid rt;
     re_search := re_search rt;
     textwrap_fill := textwrap_fill rt;
     inspect_dir := inspect_dir rt;
     object_attrs := object_attrs rt;
     sys_ps1 := ps1;
     f_locals := f_locals rt |}.

Definition with_truth (obj : pyobj) (truth : bool) : pyobj :=
  {| py_dir := py_dir obj;
     py_getattr := py_getattr obj;
     py_truth := truth;
     py_inspect := py_inspect obj |}.

End Shape.

(** ** A concrete interpreter and concrete objects *)

Module Sample.

(** Shell-style matching of a whole name, for patterns made of literal
    characters, [*] and [?]. *)
Fixpoint glob (pat : list ascii) : list ascii -> bool :=
  match pat with
  | [] => fun s => match s with [] => true | _ => false end
  | p :: pat' =>
      if Ascii.eqb p "*"%char then
        fix star (s : list ascii) : bool :=
          glob pat' s || match s with
                         | [] => false
                         | _ :: s' => star s'
                         end
      else if Ascii.eqb p "?"%char then
        fun s => match s with [] => false | _ :: s' => glob pat' s' end
      else
        fun s => match s with
                 | [] => false
                 | c :: s' => Ascii.eqb p c && glob pat' s'
                 end
  end.

Definition fnmatch (name pat : string) : bool :=
  glob (list_ascii_of_string pat) (list_ascii_of_string name).

(** Regular expressions without operators: a pattern of letters, digits
    and underscores finds a match where it occurs as a substring; the
    lone [(] is the malformed pattern. *)
Fixpoint occurs (pat name : string) : bool :=
  String.prefix pat name
  || match name with
     | EmptyString => false
     | String _ name' => occurs pat name'
     end.

Definition re_valid (pat : string) : bool := negb (String.eqb pat "(").

(** [textwrap.fill] of a text that fits one line and has no blank to trim:
    the indent, then the text. *)
Definition fill (text : string) (width : nat) (initial subsequent : string) : string :=
  initial ++ text.

Definition method : pyval := PyObject "method" true.
Definition int_ : pyval := PyObject "int" false.

(** What a plain instance inherits from [object] on Python 3.8. *)
Definition object_attrs : dict :=
  map (fun n => (n, method))
      [ "__class__"; "__delattr__"; "__dir__"; "__eq__"; "__format__";
        "__ge__"; "__getattribute__"; "__gt__"; "__hash__"; "__init__";
        "__init_subclass__"; "__le__"; "__lt__"; "__ne__"; "__new__";
        "__reduce__"; "__reduce_ex__"; "__repr__"; "__setattr__";
        "__sizeof__"; "__str__"; "__subclasshook__" ].

(** An interactive session on Python 3.8 whose caller has two locals, a
    function [parse] and a number [count]. *)
Definition rt : runtime := {|
  version_info := (3, 8, 0);
  Py.fnmatch := fnmatch;
  Py.re_valid := re_valid;
  re_search := occurs;
  textwrap_fill := fill;
  inspect_dir := [ "getmembers"; "isclass"; "isfunction"; "ismethod";
                   "ismodule"; "isroutine"; "signature" ];
  Py.object_attrs := object_attrs;
  sys_ps1 := Some ">>> ";
  f_locals := [ ("parse", PyObject "function" true); ("count", int_) ]
|}.

Definition pkg : Inspector.package := SpecModel.package rt 3 "?" 80.

(** The world when the modules have just been imported. *)
Definition w0 : world :=
  {| NO_OBJ_dict := []; DEFAULT_ARG_dict := []; trace := [] |}.

(** An object given by the names [dir()] lists and by an attribute table;
    a name outside the table raises AttributeError. *)
Definition object (names : list string) (attrs : string -> option (result pyval))
           (truth : bool) (kinds : list string) : pyobj := {|
  py_dir := names;
  py_getattr := fun a => match attrs a with
                         | Some r => r
                         | None => Raise AttributeError
                         end;
  py_truth := truth;
  py_inspect := fun k => str_in k kinds
|}.

Definition table (entries : list (string * result pyval)) (a : string)
  : option (result pyval) :=
  match find (fun e : string * result pyval => String.eqb (fst e) a) entries with
  | Some e => Some (snd e)
  | None => None
  end.

(** An instance of
    [class C(object): size = 3; broken = property(<raises e>)] *)
Definition with_broken_property (e : exn) : pyobj :=
  object [ "__class__"; "__doc__"; "__hash__"; "__repr__"; "__str__";
           "broken"; "size" ]
         (table [ ("__class__", Ok (PyObject "type" true));
                  ("__doc__", Ok PyNone);
                  ("__hash__", Ok method);
                  ("__repr__", Ok method);
                  ("__str__", Ok method);
                  ("broken", Raise e);
                  ("size", Ok (int_)) ])
         true [].

(** An instance of a class with one method [run] and the given
    [__doc__] attribute. *)
Definition with_doc (doc : result pyval) : pyobj :=
  object [ "__class__"; "__doc__"; "run" ]
         (table [ ("__class__", Ok (PyObject "type" true));
                  ("__doc__", doc);
                  ("run", Ok method) ])
         true [].

(** An instance of a class that defines both [__add__] and [__radd__],
    and [__getitem__] and [__setitem__]. *)
Definition adder : pyobj :=
  object [ "__add__"; "__class__"; "__doc__"; "__getitem__"; "__radd__";
           "__setitem__"; "total" ]
         (table [ ("__add__", Ok method);
                  ("__class__", Ok (PyObject "type" true));
                  ("__doc__", Ok PyNone);
                  ("__getitem__", Ok method);
                  ("__radd__", Ok method);
                  ("__setitem__", Ok method);
                  ("total", Ok (int_)) ])
         true [].

(** A class object: [inspect.isclass] holds of it. *)
Definition a_class : pyobj :=
  object [ "__call__"; "__doc__"; "__name__"; "mro" ]
         (table [ ("__call__", Ok method);
                  ("__doc__", Ok PyNone);
                  ("__name__", Ok (PyStr "C"));
                  ("mro", Ok method) ])
         true [ "isclass" ].

(** [None], [0] and [[]]: three values that are false in a condition. *)
Definition none_ : pyobj :=
  object [ "__bool__"; "__class__"; "__doc__"; "__repr__" ]
         (table [ ("__bool__", Ok method);
                  ("__class__", Ok (PyObject "type" true));
                  ("__doc__", Ok PyNone);
                  ("__repr__", Ok method) ])
         false [].

Definition zero : pyobj :=
  object [ "__abs__"; "__add__"; "__bool__"; "__doc__"; "__int__";
           "bit_length"; "real" ]
         (table [ ("__abs__", Ok method);
                  ("__add__", Ok method);
                  ("__bool__", Ok method);
                  ("__doc__", Ok (PyStr "int([x]) -> integer"));
                  ("__int__", Ok method);
                  ("bit_length", Ok method);
                  ("real", Ok (int_)) ])
         false [].

Definition empty_list : pyobj :=
  object [ "__doc__"; "__getitem__"; "__len__"; "append"; "pop" ]
         (table [ ("__doc__", Ok (PyStr "Built-in mutable sequence."));
                  ("__getitem__", Ok method);
                  ("__len__", Ok method);
                  ("append", Ok method);
                  ("pop", Ok method) ])
         false [].

(** An instance of a class that defines [__getattr__], after
    [setattr(obj, '*', 0)]. *)
Definition starred : pyobj :=
  object [ "*"; "__class__"; "__doc__"; "__getattr__" ]
         (table [ ("*", Ok int_);
                  ("__class__", Ok (PyObject "type" true));
                  ("__doc__", Ok PyNone);
                  ("__getattr__", Ok method) ])
         true [].

(** A session whose caller has defined a function named [abs]. *)
Definition rt_abs : runtime :=
  Shape.with_locals rt [ ("abs", PyObject "function" true) ].

End Sample.

(** * Properties *)

(** ** The filters *)

Lemma SeeActions_new_Some (l : list string) :
  SeePy.as_tuple (SeePy.SeeActions_new (Some l)) = l.
Proof. destruct l; reflexivity. Qed.

Lemma SeeResult_new_Some (l : list string) :
  Inspector.as_tuple (Inspector.SeeResult_new (Some l)) = l.
Proof. destruct l; reflexivity. Qed.

Lemma ok_pair_inv {A : Type} (x y : A) (w w' : world) :
  (Ok x, w) = (Ok y, w') -> x = y /\ w = w'.
Proof. intros H. split; congruence. Qed.

Lemma extend_nil (w : world) : Shape.extend w [] = w.
Proof. destruct w; unfold Shape.extend; simpl. now rewrite app_nil_r. Qed.

Lemma extend_extend (w : world) (cs ds : list libcall) :
  Shape.extend (Shape.extend w cs) ds = Shape.extend w (cs ++ ds).
Proof. unfold Shape.extend; simpl. now rewrite app_assoc. Qed.

Lemma log_extend (c : libcall) (w : world) : log c w = (Ok tt, Shape.extend w [c]).
Proof. reflexivity. Qed.

(** A filter whose predicate records one call per name and never raises
    keeps the names the predicate accepts and records the calls in order. *)
Lemma filterM_logged (p : string -> bool) (call : string -> libcall)
      (names : list string) (w : world) :
  filterM (fun n => bind (log (call n)) (fun _ => ret (p n))) names w
  = (Ok (filter p names), Shape.extend w (map call names)).
Proof.
  revert w. induction names as [|n names IH]; intros w; simpl.
  - unfold ret. now rewrite extend_nil.
  - unfold bind at 1 2. rewrite log_extend. unfold ret at 1.
    unfold bind at 1. rewrite IH. unfold ret.
    rewrite extend_extend. simpl. reflexivity.
Qed.

Lemma fn_filter_spec (rt : runtime) (names : list string) (pat : string) (w : world) :
  SeePy.fn_filter rt names pat w
  = (Ok (filter (fun n => fnmatch rt n pat) names),
     Shape.extend w (map (fun n => CallFnmatch n pat) names)).
Proof. unfold SeePy.fn_filter. apply filterM_logged. Qed.

Lemma regex_filter_spec (rt : runtime) (names : list string) (pat : string) (w : world) :
  SeePy.regex_filter rt names pat w
  = if re_valid rt pat
    then (Ok (filter (re_search rt pat) names),
          Shape.extend w (CallReCompile pat :: map (CallReSearch pat) names))
    else (Raise (OtherException "re.error"), Shape.extend w [CallReCompile pat]).
Proof.
  unfold SeePy.regex_filter. unfold bind at 1 2. rewrite log_extend.
  destruct (re_valid rt pat); unfold ret, raise; [|reflexivity].
  rewrite (filterM_logged (re_search rt pat) (CallReSearch pat)).
  now rewrite extend_extend.
Qed.

(** ** Capability detection *)

Lemma str_in_In (s : string) (l : list string) : str_in s l = true <-> In s l.
Proof.
  unfold str_in. rewrite existsb_exists. split.
  - intros (x & Hx & E). apply String.eqb_eq in E. now subst.
  - intros H. exists s. split; [assumption | apply String.eqb_refl].
Qed.

Lemma str_in_false (s : string) (l : list string) : str_in s l = false <-> ~ In s l.
Proof.
  rewrite <- str_in_In. destruct (str_in s l); split; congruence.
Qed.

Lemma keep_first_In (acc : list string) (s t : string) :
  In t (SpecModel.keep_first acc s) <-> In t acc \/ t = s.
Proof.
  unfold SpecModel.keep_first. destruct (str_in s acc) eqn:E.
  - apply str_in_In in E. split; [tauto | intros [H | ->]; assumption].
  - rewrite in_app_iff. simpl. split; intros [H | H]; auto.
    + destruct H as [H | []]; auto.
Qed.

Lemma fold_keep_first_In (l acc : list string) (t : string) :
  In t (fold_left SpecModel.keep_first l acc) <-> In t acc \/ In t l.
Proof.
  revert acc. induction l as [|s l IH]; intros acc; simpl.
  - tauto.
  - rewrite IH, keep_first_In. split; intros H; intuition auto.
Qed.

Lemma keep_first_NoDup (acc : list string) (s : string) :
  NoDup acc -> NoDup (SpecModel.keep_first acc s).
Proof.
  intros H. unfold SpecModel.keep_first. destruct (str_in s acc) eqn:E; [assumption|].
  apply str_in_false in E. apply NoDup_app; [assumption | repeat constructor; auto |].
  intros a Ha [<- | []]. congruence.
Qed.

Lemma fold_keep_first_NoDup (l acc : list string) :
  NoDup acc -> NoDup (fold_left SpecModel.keep_first l acc).
Proof.
  revert acc. induction l as [|s l IH]; intros acc H; simpl; [assumption|].
  apply IH, keep_first_NoDup, H.
Qed.

Lemma fold_keep_first_prefix (l acc : list string) :
  exists more, fold_left SpecModel.keep_first l acc = (acc ++ more)%list.
Proof.
  revert acc. induction l as [|s l IH]; intros acc; simpl.
  - exists []. now rewrite app_nil_r.
  - destruct (IH (SpecModel.keep_first acc s)) as (more & ->).
    unfold SpecModel.keep_first. destruct (str_in s acc).
    + now exists more.
    + exists (s :: more). now rewrite <- app_assoc.
Qed.

Lemma first_wins_NoDup (l : list string) : NoDup (SpecModel.first_wins l).
Proof. apply fold_keep_first_NoDup. constructor. Qed.

Lemma first_wins_In (l : list string) (t : string) :
  In t (SpecModel.first_wins l) <-> In t l.
Proof. unfold SpecModel.first_wins. rewrite fold_keep_first_In. simpl. tauto. Qed.

(** The documentation test succeeds exactly on a string that is not blank. *)
Lemma doc_first_char_Ok (rt : runtime) (obj : pyobj) :
  SpecModel.doc_ok rt obj = true <->
  exists s, py_getattr obj "__doc__" = Ok (PyStr s) /\ strip (SeePy.PY_300 rt) s <> "".
Proof.
  unfold SpecModel.doc_ok, SeePy.doc_first_char.
  destruct (py_getattr obj "__doc__") as [[| s | cls c] | e].
  - split; [discriminate | intros (s & E & _); discriminate].
  - destruct (strip (SeePy.PY_300 rt) s) eqn:E.
    + split; [discriminate|]. intros (s' & E' & N). injection E' as <-. congruence.
    + split; [|reflexivity]. intros _. exists s. split; [reflexivity|]. now rewrite E.
  - split; [discriminate | intros (s & E & _); discriminate].
  - split; [discriminate | intros (s & E & _); discriminate].
Qed.

(** What the documentation test raises: the error of the attribute access,
    AttributeError on a value that is no string, IndexError on a blank one. *)
Lemma doc_first_char_Raise (rt : runtime) (obj : pyobj) (e : exn) :
  SeePy.doc_first_char rt obj = Raise e ->
  py_getattr obj "__doc__" = Raise e \/ e = AttributeError \/ e = IndexError.
Proof.
  unfold SeePy.doc_first_char.
  destruct (py_getattr obj "__doc__") as [[| s | cls c] | e'].
  - intros [= <-]. auto.
  - destruct (strip (SeePy.PY_300 rt) s); [intros [= <-]; auto | discriminate].
  - intros [= <-]. auto.
  - intros [= <-]. auto.
Qed.

(** The detection loop, when it completes, has appended the symbols of the
    matching entries, each unless already there. *)
Lemma detect_spec (rt : runtime) (obj : pyobj) (attrs : list string)
      (symbols : list (string * string)) (actions r : list string) :
  SeePy.detect rt obj attrs symbols actions = Ok r ->
  r = fold_left SpecModel.keep_first
        (map snd (filter (fun e : string * string =>
                            SpecModel.probe_present rt obj attrs (fst e)) symbols))
        actions.
Proof.
  revert actions. induction symbols as [|[var symbol] rest IH]; intros actions; simpl.
  - now intros [= <-].
  - unfold SpecModel.probe_present at 1. simpl fst.
    destruct (str_in var attrs) eqn:Hvar; simpl.
    2:{ apply IH. }
    destruct (str_in symbol actions) eqn:Hsym; simpl.
    + intros H. apply IH in H.
      destruct (negb (var =? "__doc__") || SpecModel.doc_ok rt obj); simpl; [|assumption].
      unfold SpecModel.keep_first at 2. now rewrite Hsym.
    + destruct (var =? "__doc__") eqn:Hdoc; simpl.
      * unfold SpecModel.doc_ok.
        destruct (SeePy.doc_first_char rt obj) as [c | e]; simpl.
        -- intros H. apply IH in H. unfold SpecModel.keep_first at 2. now rewrite Hsym.
        -- destruct (is_AttributeError e || is_IndexError e); [apply IH | discriminate].
      * intros H. apply IH in H. unfold SpecModel.keep_first at 2. now rewrite Hsym.
Qed.

(** The loop completes when the documentation test raises nothing but the
    two errors it handles. *)
Lemma detect_returns (rt : runtime) (obj : pyobj) (attrs : list string)
      (symbols : list (string * string)) (actions : list string) :
  (forall e, SeePy.doc_first_char rt obj = Raise e ->
             e = AttributeError \/ e = IndexError) ->
  exists r, SeePy.detect rt obj attrs symbols actions = Ok r.
Proof.
  intros Hdoc. revert actions.
  induction symbols as [|[var symbol] rest IH]; intros actions; simpl.
  - now exists actions.
  - destruct (negb (str_in var attrs) || str_in symbol actions); [apply IH|].
    destruct (var =? "__doc__"); [|apply IH].
    destruct (SeePy.doc_first_char rt obj) as [c | e] eqn:E; [apply IH|].
    destruct (Hdoc e eq_refl) as [-> | ->]; simpl; apply IH.
Qed.

(** ** The attribute scan of see.py *)

Lemma scan_spec (obj : pyobj) (dot : string) (attrs actions r : list string) :
  SeePy.scan obj dot attrs actions = Ok r ->
  r = (actions ++ Shape.attr_tokens obj dot attrs)%list.
Proof.
  revert actions. induction attrs as [|a attrs IH]; intros actions; simpl.
  - intros [= <-]. now rewrite app_nil_r.
  - destruct (py_getattr obj a) as [v | e].
    + intros H. apply IH in H. subst r. now rewrite <- app_assoc.
    + destruct (is_AttributeError e); [apply IH | discriminate].
Qed.

Lemma scan_returns (obj : pyobj) (dot : string) (attrs actions : list string) :
  (forall a e, In a attrs -> py_getattr obj a = Raise e -> e = AttributeError) ->
  SeePy.scan obj dot attrs actions
  = Ok (actions ++ Shape.attr_tokens obj dot attrs)%list.
Proof.
  revert actions. induction attrs as [|a attrs IH]; intros actions H; simpl.
  - now rewrite app_nil_r.
  - destruct (py_getattr obj a) as [v | e] eqn:E.
    + rewrite IH; [now rewrite <- app_assoc | intros; eapply H; eauto; now right].
    + rewrite (H a e (or_introl eq_refl) E). simpl.
      apply IH. intros; eapply H; eauto; now right.
Qed.

(** An attribute that raises something else than AttributeError ends the
    scan with that error. *)
Lemma scan_propagates (obj : pyobj) (dot : string) (attrs actions : list string)
      (a : string) (e : exn) :
  In a attrs -> py_getattr obj a = Raise e -> is_AttributeError e = false ->
  exists e', SeePy.scan obj dot attrs actions = Raise e'.
Proof.
  revert actions. induction attrs as [|b attrs IH]; intros actions Hin Ha He; [easy|].
  simpl. destruct (py_getattr obj b) as [v | e0] eqn:E.
  - destruct Hin as [-> | Hin]; [congruence | now apply IH].
  - destruct (is_AttributeError e0) eqn:E0; [|now exists e0].
    destruct Hin as [-> | Hin]; [congruence | now apply IH].
Qed.

(** ** The call of see.py, without filters *)

Lemma see_py_target (rt : runtime) (o : pyobj) (w : world) :
  SeePy.see rt (Target o) None None w
  = (match SeePy.detect rt o (py_dir o) (SeePy.SYMBOLS rt) [] with
     | Ok syms =>
         match SeePy.scan o "." (SeePy.visible (py_dir o)) syms with
         | Ok r => Ok (SeePy.mkSeeActions r)
         | Raise e => Raise e
         end
     | Raise e => Raise e
     end, w).
Proof.
  cbv beta iota zeta delta [SeePy.see bind lift ret SeePy.is_NO_OBJ negb].
  destruct (SeePy.detect rt o (py_dir o) (SeePy.SYMBOLS rt) []) as [syms | e];
    [|reflexivity].
  destruct (SeePy.scan o "." (SeePy.visible (py_dir o)) syms) as [r | e];
    [|reflexivity].
  destruct r; reflexivity.
Qed.

(** A call that returns has produced the detected symbols, then the tokens
    of the visible attributes that resolve. *)
Lemma see_py_target_shape (rt : runtime) (o : pyobj) (w w' : world)
      (res : SeePy.SeeActions) :
  SeePy.see rt (Target o) None None w = (Ok res, w') ->
  SeePy.detect rt o (py_dir o) (SeePy.SYMBOLS rt) [] = Ok (Shape.detected rt o) /\
  SeePy.as_tuple res
  = (Shape.detected rt o
     ++ Shape.attr_tokens o "." (SeePy.visible (py_dir o)))%list /\
  w' = w.
Proof.
  rewrite see_py_target.
  destruct (SeePy.detect rt o (py_dir o) (SeePy.SYMBOLS rt) []) as [syms | e] eqn:D;
    [|discriminate].
  destruct (SeePy.scan o "." (SeePy.visible (py_dir o)) syms) as [r | e] eqn:S;
    [|discriminate].
  intros [= <- <-]. apply detect_spec in D. apply scan_spec in S.
  subst syms r. repeat split; reflexivity.
Qed.

(** ** The call of inspector.py, without filters *)

Lemma inspect_loop_spec (obj : pyobj) (names actions : list string) :
  Inspector.inspect_loop obj
    (map (fun name => (name, fun o : pyobj => py_inspect o name)) names) actions
  = (actions ++ filter (py_inspect obj) names)%list.
Proof.
  revert actions. induction names as [|n names IH]; intros actions; simpl.
  - now rewrite app_nil_r.
  - destruct (py_inspect obj n); rewrite IH; [now rewrite <- app_assoc | reflexivity].
Qed.

Lemma feature_loop_spec (obj : pyobj) (attrs : list string)
      (features : list Inspector.Feature) (actions : list string) :
  Inspector.feature_loop obj attrs features actions
  = (actions ++ map Inspector.symbol
                    (filter (fun f => Inspector.fmatch f obj attrs) features))%list.
Proof.
  revert actions. induction features as [|f features IH]; intros actions; simpl.
  - now rewrite app_nil_r.
  - destruct (Inspector.fmatch f obj attrs); rewrite IH;
      [now rewrite <- app_assoc | reflexivity].
Qed.

(** The scan of inspector.py emits one token per name, whatever a
    resolution raises among the subclasses of [Exception]. *)
Lemma inspector_scan_returns (pkg : Inspector.package) (obj : pyobj) (local : bool)
      (attrs actions : list string) :
  (forall a e, In a attrs -> py_getattr obj a = Raise e -> is_Exception e = true) ->
  Inspector.scan pkg obj local attrs actions
  = Ok (actions ++ Shape.display_tokens pkg obj local attrs)%list.
Proof.
  revert actions. induction attrs as [|a attrs IH]; intros actions H; simpl.
  - now rewrite app_nil_r.
  - unfold Shape.resolve at 1. destruct (py_getattr obj a) as [v | e] eqn:E.
    + rewrite IH; [now rewrite <- app_assoc | intros; eapply H; eauto; now right].
    + rewrite (H a e (or_introl eq_refl) E), orb_true_r.
      rewrite IH; [now rewrite <- app_assoc | intros; eapply H; eauto; now right].
Qed.

Lemma inspector_scan_spec (pkg : Inspector.package) (obj : pyobj) (local : bool)
      (attrs actions r : list string) :
  Inspector.scan pkg obj local attrs actions = Ok r ->
  r = (actions ++ Shape.display_tokens pkg obj local attrs)%list.
Proof.
  revert actions. induction attrs as [|a attrs IH]; intros actions; simpl.
  - intros [= <-]. now rewrite app_nil_r.
  - unfold Shape.resolve at 1. destruct (py_getattr obj a) as [v | e].
    + intros H. apply IH in H. subst r. now rewrite <- app_assoc.
    + destruct (is_AttributeError e || is_Exception e); [|discriminate].
      intros H. apply IH in H. subst r. now rewrite <- app_assoc.
Qed.

Lemma inspector_target (rt : runtime) (pkg : Inspector.package) (o : pyobj) (w : world) :
  Inspector.see rt pkg (Target o) None None w
  = (match Inspector.scan pkg o false (Inspector.visible (py_dir o))
             (Shape.inspect_names rt o ++ Shape.feature_symbols pkg o)%list with
     | Ok r => Ok (Inspector.mkSeeResult r)
     | Raise e => Raise e
     end, w).
Proof.
  cbv beta iota zeta delta [Inspector.see bind lift ret Inspector.is_DEFAULT_ARG negb].
  unfold Inspector.INSPECT_FUNCS. rewrite inspect_loop_spec, feature_loop_spec.
  simpl app. fold (Shape.inspect_names rt o). fold (Shape.feature_symbols pkg o).
  destruct (Inspector.scan pkg o false (Inspector.visible (py_dir o))
              (Shape.inspect_names rt o ++ Shape.feature_symbols pkg o)) as [r | e];
    [|reflexivity].
  destruct r; reflexivity.
Qed.

Lemma inspector_default (rt : runtime) (pkg : Inspector.package) (w : world) :
  Inspector.see rt pkg Default None None w
  = (match Inspector.scan pkg (Inspector.Namespace rt (f_locals rt)) true
             (Inspector.visible (py_dir (Inspector.Namespace rt (f_locals rt)))) [] with
     | Ok r => Ok (Inspector.mkSeeResult r)
     | Raise e => Raise e
     end, w).
Proof.
  cbv beta iota zeta delta [Inspector.see bind lift ret Inspector.is_DEFAULT_ARG negb].
  destruct (Inspector.scan pkg (Inspector.Namespace rt (f_locals rt)) true
              (Inspector.visible (py_dir (Inspector.Namespace rt (f_locals rt)))) [])
    as [r | e]; [|reflexivity].
  destruct r; reflexivity.
Qed.

(** inspector.py keeps an attribute whose resolution raises: the result has
    one token per visible attribute, after the predicate names and the
    feature symbols. *)
Lemma inspector_keeps_failing_attributes (rt : runtime) (pkg : Inspector.package)
      (o : pyobj) (w : world) :
  (forall a e, In a (Inspector.visible (py_dir o)) ->
               py_getattr o a = Raise e -> is_Exception e = true) ->
  exists res,
    Inspector.see rt pkg (Target o) None None w = (Ok res, w) /\
    Inspector.as_tuple res
    = (Shape.inspect_names rt o ++ Shape.feature_symbols pkg o
       ++ Shape.display_tokens pkg o false (Inspector.visible (py_dir o)))%list /\
    Inspector.SeeResult_len res
    = List.length (Shape.inspect_names rt o) + List.length (Shape.feature_symbols pkg o)
      + List.length (Inspector.visible (py_dir o)).
Proof.
  intros H. rewrite inspector_target, inspector_scan_returns by exact H.
  eexists. split; [reflexivity|]. simpl. split.
  - now rewrite <- app_assoc.
  - unfold Inspector.SeeResult_len, Tuple.len, Shape.display_tokens. simpl.
    rewrite !length_app, length_map. lia.
Qed.

(** C1.  see.py on an instance whose property [broken] raises: when the
    property raises AttributeError the call returns without any token for
    [broken] (one attribute token for two visible attributes); when it
    raises another error the call itself raises that error.  The
    specification asks for one token per visible attribute and no
    propagation. *)
Theorem C1_see_py_drops_or_propagates (rt : runtime) (w : world) :
  SeePy.see rt (Target (Sample.with_broken_property AttributeError)) None None w
  = (Ok (SeePy.mkSeeActions ["hash()"; "repr()"; "str()"; ".size"]), w)
  /\ SeePy.visible (py_dir (Sample.with_broken_property AttributeError))
     = ["broken"; "size"]
  /\ SeePy.see rt (Target (Sample.with_broken_property (OtherException "ValueError")))
               None None w
     = (Raise (OtherException "ValueError"), w).
Proof.
  rewrite !see_py_target. unfold SeePy.SYMBOLS, SeePy.SYMBOLS_table.
  destruct (SeePy.PY_300 rt), (SeePy.PY_301 rt); repeat split; reflexivity.
Qed.

(** ** The documentation symbol *)

Lemma help_probe (rt : runtime) :
  filter (fun e : string * string => String.eqb (snd e) "help()") (SeePy.SYMBOLS rt)
  = [("__doc__", "help()")].
Proof.
  unfold SeePy.SYMBOLS, SeePy.SYMBOLS_table.
  destruct (SeePy.PY_300 rt), (SeePy.PY_301 rt); reflexivity.
Qed.

Lemma detected_In (rt : runtime) (obj : pyobj) (s : string) :
  In s (Shape.detected rt obj) <->
  exists var, In (var, s) (SeePy.SYMBOLS rt) /\
              SpecModel.probe_present rt obj (py_dir obj) var = true.
Proof.
  unfold Shape.detected, Shape.matching. rewrite first_wins_In, in_map_iff. split.
  - intros ([var s'] & E & H). simpl in E. subst s'. apply filter_In in H.
    exists var. exact H.
  - intros (var & H1 & H2). exists (var, s). split; [reflexivity|].
    apply filter_In. split; assumption.
Qed.

Lemma detected_help (rt : runtime) (obj : pyobj) :
  In "help()" (Shape.detected rt obj) <-> Shape.doc_present rt obj.
Proof.
  rewrite detected_In. unfold Shape.doc_present. rewrite <- doc_first_char_Ok. split.
  - intros (var & Hin & Hp).
    assert (Hf : In (var, "help()")
                    (filter (fun e : string * string => String.eqb (snd e) "help()")
                            (SeePy.SYMBOLS rt)))
      by (apply filter_In; split; [assumption | reflexivity]).
    rewrite help_probe in Hf. destruct Hf as [[= <-] | []].
    unfold SpecModel.probe_present in Hp. apply andb_prop in Hp. exact Hp.
  - intros [H1 H2]. exists "__doc__". split.
    + assert (Hf : In ("__doc__", "help()")
                      (filter (fun e : string * string => String.eqb (snd e) "help()")
                              (SeePy.SYMBOLS rt)))
        by (rewrite help_probe; now left).
      apply filter_In in Hf. apply Hf.
    + unfold SpecModel.probe_present. now rewrite H1, H2.
Qed.

(** A token of an attribute of see.py is the separator, the name of a
    listed attribute that resolves, and the call marker of its value. *)
Lemma attr_tokens_In (obj : pyobj) (dot : string) (attrs : list string) (t : string) :
  In t (Shape.attr_tokens obj dot attrs) <->
  exists a v, In a attrs /\ py_getattr obj a = Ok v /\ t = SeePy.name dot a v.
Proof.
  unfold Shape.attr_tokens. rewrite in_flat_map. split.
  - intros (a & Ha & Ht). destruct (py_getattr obj a) as [v | e] eqn:E; [|easy].
    destruct Ht as [<- | []]. now exists a, v.
  - intros (a & v & Ha & E & ->). exists a. split; [assumption|].
    rewrite E. now left.
Qed.

Lemma dotted_token_head (a : string) (v : pyval) :
  SeePy.name "." a v = String "."%char (a ++ SeePy.func v).
Proof. reflexivity. Qed.

(** C2, as amended.  When the access to [__doc__] returns a value or raises
    AttributeError or IndexError, the detection pass completes, and it emits
    [help()] exactly when the object lists [__doc__] and the attribute is a
    string that is not empty once stripped; the same holds of the tokens of
    every call that returns. *)
Theorem C2_help_symbol (rt : runtime) (o : pyobj) (w : world) :
  (forall e, py_getattr o "__doc__" = Raise e -> e = AttributeError \/ e = IndexError) ->
  SeePy.detect rt o (py_dir o) (SeePy.SYMBOLS rt) [] = Ok (Shape.detected rt o)
  /\ (In "help()" (Shape.detected rt o) <-> Shape.doc_present rt o)
  /\ (forall res w', SeePy.see rt (Target o) None None w = (Ok res, w') ->
        (In "help()" (SeePy.as_tuple res) <-> Shape.doc_present rt o)).
Proof.
  intros Hdoc. split; [|split].
  - destruct (detect_returns rt o (py_dir o) (SeePy.SYMBOLS rt) []) as [r Hr].
    + intros e He. apply doc_first_char_Raise in He.
      destruct He as [He | He]; [now apply Hdoc | exact He].
    + rewrite Hr. f_equal. now apply detect_spec in Hr.
  - apply detected_help.
  - intros res w' H. apply see_py_target_shape in H. destruct H as (_ & -> & _).
    rewrite in_app_iff, detected_help. split; [|now left].
    intros [H | H]; [exact H|]. apply attr_tokens_In in H.
    destruct H as (a & v & _ & _ & E). rewrite dotted_token_head in E. discriminate E.
Qed.

(** A class body with a docstring: [help()] is emitted. *)
Lemma C2_help_symbol_witness :
  SeePy.detect Sample.rt (Sample.with_doc (Ok (PyStr " Run it. ")))
               (py_dir (Sample.with_doc (Ok (PyStr " Run it. "))))
               (SeePy.SYMBOLS Sample.rt) []
  = Ok (Shape.detected Sample.rt (Sample.with_doc (Ok (PyStr " Run it. "))))
  /\ (In "help()" (Shape.detected Sample.rt (Sample.with_doc (Ok (PyStr " Run it. "))))
      <-> Shape.doc_present Sample.rt (Sample.with_doc (Ok (PyStr " Run it. "))))
  /\ (forall res w',
        SeePy.see Sample.rt (Target (Sample.with_doc (Ok (PyStr " Run it. "))))
                  None None Sample.w0 = (Ok res, w') ->
        (In "help()" (SeePy.as_tuple res)
         <-> Shape.doc_present Sample.rt (Sample.with_doc (Ok (PyStr " Run it. "))))).
Proof.
  apply (C2_help_symbol Sample.rt (Sample.with_doc (Ok (PyStr " Run it. "))) Sample.w0).
  intros e H. discriminate H.
Defined.

(** C2 as stated fails: a [__doc__] whose access raises an error
    that is neither AttributeError nor IndexError makes the call raise. *)
Lemma C2_doc_error_propagates :
  py_getattr (Sample.with_doc (Raise (OtherException "ZeroDivisionError"))) "__doc__"
  = Raise (OtherException "ZeroDivisionError")
  /\ fst (SeePy.see Sample.rt
            (Target (Sample.with_doc (Raise (OtherException "ZeroDivisionError"))))
            None None Sample.w0)
     = Raise (OtherException "ZeroDivisionError").
Proof. split; reflexivity. Qed.

(** ** Symbols are emitted once *)

Lemma dotted_symbol (rt : runtime) (s : string) :
  In s (map snd (SeePy.SYMBOLS rt)) -> Shape.starts_with_dot s = true -> s = ".*".
Proof.
  intros Hin Hdot.
  assert (H : forallb (fun t => negb (Shape.starts_with_dot t) || String.eqb t ".*")
                      (map snd (SeePy.SYMBOLS rt)) = true).
  { unfold SeePy.SYMBOLS, SeePy.SYMBOLS_table.
    destruct (SeePy.PY_300 rt), (SeePy.PY_301 rt); reflexivity. }
  rewrite forallb_forall in H. specialize (H s Hin). rewrite Hdot in H.
  now apply String.eqb_eq in H.
Qed.

Lemma func_cases (v : pyval) :
  (hasattr_call v = true /\ SeePy.func v = "()") \/
  (hasattr_call v = false /\ SeePy.func v = "").
Proof. unfold SeePy.func. destruct (hasattr_call v); auto. Qed.

Lemma append_empty_r (a : string) : a ++ "" = a.
Proof. induction a as [|c a IH]; simpl; [reflexivity | now rewrite IH]. Qed.

Lemma append_call_not_star (a : string) : a ++ "()" <> "*".
Proof.
  destruct a as [|c [|c' a]]; simpl; try discriminate.
Qed.

(** C3, as amended.  A call that returns has produced the detected symbols
    followed by the attribute tokens.  The detected symbols hold no
    duplicate: they are the symbols of the entries whose probe is present,
    in registry order, each at its first match.  So every symbol other than
    [.*] occurs at most once in the result, and [.*] occurs more than once
    only when the object has a visible attribute named [*] whose value is
    not callable. *)
Theorem C3_symbol_once (rt : runtime) (o : pyobj) (w w' : world)
        (res : SeePy.SeeActions) :
  SeePy.see rt (Target o) None None w = (Ok res, w') ->
  SeePy.as_tuple res
  = (Shape.detected rt o ++ Shape.attr_tokens o "." (SeePy.visible (py_dir o)))%list
  /\ Shape.detected rt o = SpecModel.first_wins (map snd (Shape.matching rt o))
  /\ NoDup (Shape.detected rt o)
  /\ (forall s, In s (Shape.detected rt o) <->
                exists var, In (var, s) (SeePy.SYMBOLS rt) /\
                            SpecModel.probe_present rt o (py_dir o) var = true)
  /\ (forall s, In s (map snd (SeePy.SYMBOLS rt)) -> s <> ".*" ->
                count_occ string_dec (SeePy.as_tuple res) s <= 1)
  /\ (count_occ string_dec (SeePy.as_tuple res) ".*" <= 1 \/
      exists v, In "*" (SeePy.visible (py_dir o)) /\ py_getattr o "*" = Ok v /\
                hasattr_call v = false).
Proof.
  intros H. apply see_py_target_shape in H. destruct H as (_ & E & _).
  assert (Hnd : NoDup (Shape.detected rt o)) by apply first_wins_NoDup.
  assert (Hone : forall s, count_occ string_dec (Shape.detected rt o) s <= 1)
    by (apply NoDup_count_occ; exact Hnd).
  repeat split.
  - exact E.
  - exact Hnd.
  - apply detected_In.
  - apply detected_In.
  - intros s Hs Hne. rewrite E, count_occ_app.
    assert (Hnot : ~ In s (Shape.attr_tokens o "." (SeePy.visible (py_dir o)))).
    { intros Hin. apply attr_tokens_In in Hin. destruct Hin as (a & v & _ & _ & Et).
      apply Hne, (dotted_symbol rt); [exact Hs | now rewrite Et]. }
    apply (count_occ_not_In string_dec) in Hnot. rewrite Hnot.
    specialize (Hone s). lia.
  - destruct (in_dec string_dec ".*"
                (Shape.attr_tokens o "." (SeePy.visible (py_dir o)))) as [Hin | Hnot].
    + right. apply attr_tokens_In in Hin. destruct Hin as (a & v & Ha & Hv & Et).
      rewrite dotted_token_head in Et. injection Et as Et.
      destruct (func_cases v) as [[_ Hf] | [Hc Hf]]; rewrite Hf in Et.
      * symmetry in Et. now apply append_call_not_star in Et.
      * rewrite append_empty_r in Et. subst a. now exists v.
    + left. rewrite E, count_occ_app.
      apply (count_occ_not_In string_dec) in Hnot. rewrite Hnot.
      specialize (Hone ".*"). lia.
Qed.

(** An object with [__add__] and [__radd__], [__getitem__] and
    [__setitem__]: [+] and [[]] are emitted once each. *)
Lemma C3_symbol_once_witness :
  SeePy.as_tuple (SeePy.mkSeeActions ["[]"; "+"; ".total"])
  = (Shape.detected Sample.rt Sample.adder
     ++ Shape.attr_tokens Sample.adder "." (SeePy.visible (py_dir Sample.adder)))%list
  /\ Shape.detected Sample.rt Sample.adder
     = SpecModel.first_wins (map snd (Shape.matching Sample.rt Sample.adder))
  /\ NoDup (Shape.detected Sample.rt Sample.adder)
  /\ (forall s, In s (Shape.detected Sample.rt Sample.adder) <->
                exists var, In (var, s) (SeePy.SYMBOLS Sample.rt) /\
                            SpecModel.probe_present Sample.rt Sample.adder
                              (py_dir Sample.adder) var = true)
  /\ (forall s, In s (map snd (SeePy.SYMBOLS Sample.rt)) -> s <> ".*" ->
                count_occ string_dec
                  (SeePy.as_tuple (SeePy.mkSeeActions ["[]"; "+"; ".total"])) s <= 1)
  /\ (count_occ string_dec
        (SeePy.as_tuple (SeePy.mkSeeActions ["[]"; "+"; ".total"])) ".*" <= 1 \/
      exists v, In "*" (SeePy.visible (py_dir Sample.adder)) /\
                py_getattr Sample.adder "*" = Ok v /\ hasattr_call v = false).
Proof.
  apply (C3_symbol_once Sample.rt Sample.adder Sample.w0 Sample.w0).
  reflexivity.
Defined.

(** C3 as stated fails: on an object that defines [__getattr__]
    and has an attribute named [*], the result holds [.*] twice, once as
    the symbol and once as the token of the attribute. *)
Lemma C3_star_attribute_twice :
  In ".*" (map snd (SeePy.SYMBOLS Sample.rt))
  /\ fst (SeePy.see Sample.rt (Target Sample.starred) None None Sample.w0)
     = Ok (SeePy.mkSeeActions [".*"; ".*"])
  /\ count_occ string_dec [".*"; ".*"] ".*" = 2.
Proof. repeat split; vm_compute; tauto. Qed.

(** ** The filter stage *)

(** A call with filters is the call without them, followed by the filter
    stage on its tokens. *)
Lemma see_py_filtered (rt : runtime) (a : arg) (pattern r : option string) (w : world) :
  SeePy.see rt a pattern r w
  = match SeePy.see rt a None None w with
    | (Ok res0, w1) => Shape.filter_stage rt pattern r (SeePy.as_tuple res0) w1
    | (Raise e, w1) => (Raise e, w1)
    end.
Proof.
  unfold Shape.filter_stage.
  cbv beta iota zeta delta [SeePy.see bind lift ret SeePy.is_NO_OBJ negb
                            SeePy.set_NO_OBJ_dict].
  destruct a as [|o].
  - destruct (SeePy.scan _ "" _ []) as [acts | e]; [|reflexivity].
    now rewrite SeeActions_new_Some.
  - destruct (SeePy.detect rt o (py_dir o) (SeePy.SYMBOLS rt) []) as [syms | e];
      [|reflexivity].
    destruct (SeePy.scan o "." (SeePy.visible (py_dir o)) syms) as [acts | e];
      [|reflexivity].
    now rewrite SeeActions_new_Some.
Qed.

(** C4.  The wildcard filter keeps, in order, the tokens that
    [fnmatch.fnmatch] accepts against the pattern, and the regex filter the
    tokens in which the pattern, compiled by a single call of
    [re.compile], finds a match.  On the tokens of a call, the wildcard
    filter runs first, on all of them; then the pattern is compiled, once;
    then the search runs on the tokens the wildcard filter has kept. *)
Theorem C4_filter_stage (rt : runtime) (a : arg) (p q : string) (w w1 : world)
        (res0 : SeePy.SeeActions) :
  SeePy.see rt a None None w = (Ok res0, w1) ->
  re_valid rt q = true ->
  (forall names w0,
      SeePy.fn_filter rt names p w0
      = (Ok (filter (fun n => fnmatch rt n p) names),
         Shape.extend w0 (map (fun n => CallFnmatch n p) names)))
  /\ (forall names w0,
         SeePy.regex_filter rt names q w0
         = (Ok (filter (re_search rt q) names),
            Shape.extend w0 (CallReCompile q :: map (CallReSearch q) names)))
  /\ SeePy.see rt a (Some p) (Some q) w
     = (Ok (SeePy.SeeActions_new
              (Some (filter (re_search rt q)
                            (filter (fun n => fnmatch rt n p) (SeePy.as_tuple res0))))),
        Shape.extend w1
          (map (fun n => CallFnmatch n p) (SeePy.as_tuple res0)
           ++ CallReCompile q
              :: map (CallReSearch q)
                     (filter (fun n => fnmatch rt n p) (SeePy.as_tuple res0)))%list).
Proof.
  intros H Hq. split; [|split].
  - intros names w0. apply fn_filter_spec.
  - intros names w0. now rewrite regex_filter_spec, Hq.
  - rewrite see_py_filtered, H. unfold Shape.filter_stage, bind.
    rewrite fn_filter_spec, regex_filter_spec, Hq. unfold ret.
    now rewrite extend_extend.
Qed.

(** The tokens of [0] through the pattern [*b*] and the expression [o]. *)
Lemma C4_filter_stage_witness :
  SeePy.see Sample.rt (Target Sample.zero) (Some "*b*") (Some "o") Sample.w0
  = (Ok (SeePy.mkSeeActions ["bool()"]),
     Shape.extend Sample.w0
       [ CallFnmatch "+" "*b*"; CallFnmatch "abs()" "*b*";
         CallFnmatch "bool()" "*b*"; CallFnmatch "help()" "*b*";
         CallFnmatch "int()" "*b*"; CallFnmatch ".bit_length()" "*b*";
         CallFnmatch ".real" "*b*"; CallReCompile "o";
         CallReSearch "o" "abs()"; CallReSearch "o" "bool()";
         CallReSearch "o" ".bit_length()" ]).
Proof.
  apply (C4_filter_stage Sample.rt (Target Sample.zero) "*b*" "o" Sample.w0 Sample.w0
           (SeePy.mkSeeActions
              ["+"; "abs()"; "bool()"; "help()"; "int()"; ".bit_length()"; ".real"])).
  - reflexivity.
  - reflexivity.
Defined.

(** A malformed expression is reported after the wildcard filter has run,
    by the one call that compiles it. *)
Lemma see_py_malformed_regex (rt : runtime) (a : arg) (p q : string) (w w1 : world)
      (res0 : SeePy.SeeActions) :
  SeePy.see rt a None None w = (Ok res0, w1) ->
  re_valid rt q = false ->
  SeePy.see rt a (Some p) (Some q) w
  = (Raise (OtherException "re.error"),
     Shape.extend w1 (map (fun n => CallFnmatch n p) (SeePy.as_tuple res0)
                      ++ [CallReCompile q])%list).
Proof.
  intros H Hq. rewrite see_py_filtered, H. unfold Shape.filter_stage, bind.
  rewrite fn_filter_spec, regex_filter_spec, Hq. now rewrite extend_extend.
Qed.

(** Filtering keeps a sublist: every token of a filtered result is a token
    of the result without filters. *)
Lemma see_py_filtered_incl (rt : runtime) (a : arg) (pattern r : option string)
      (w w' : world) (res : SeePy.SeeActions) :
  SeePy.see rt a pattern r w = (Ok res, w') ->
  exists res0 w1, SeePy.see rt a None None w = (Ok res0, w1) /\
                  incl (SeePy.as_tuple res) (SeePy.as_tuple res0).
Proof.
  rewrite see_py_filtered.
  destruct (SeePy.see rt a None None w) as [[res0 | e] w1]; [|discriminate].
  intros H. exists res0, w1. split; [reflexivity|].
  unfold Shape.filter_stage, bind in H.
  destruct pattern as [p|], r as [q|]; unfold ret in H;
    rewrite ?fn_filter_spec, ?regex_filter_spec in H; cbv beta iota in H;
    try (destruct (re_valid rt q); cbv beta iota in H; [|discriminate]);
    match type of H with
    | (Ok ?x, _) = (Ok _, _) => assert (E : res = x) by congruence
    end;
    rewrite E, SeeActions_new_Some; intros t Ht.
  - apply filter_In in Ht. destruct Ht as [Ht _]. apply filter_In in Ht. apply Ht.
  - apply filter_In in Ht. apply Ht.
  - apply filter_In in Ht. apply Ht.
  - exact Ht.
Qed.

(** ** Local scope *)

Lemma insert_sorted_In (a x : string) (l : list string) :
  In x (insert_sorted a l) <-> x = a \/ In x l.
Proof.
  induction l as [|b l IH]; simpl.
  - split; intros [H | H]; auto.
  - destruct (String.leb a b); simpl; [split; intros [H | H]; auto|].
    rewrite IH. split; intros H; intuition auto.
Qed.

Lemma sorted_In (x : string) (l : list string) : In x (sorted l) <-> In x l.
Proof.
  induction l as [|a l IH]; simpl; [tauto|].
  rewrite insert_sorted_In, IH. split; intros [H | H]; auto.
Qed.

Lemma uniq_In (x : string) (l : list string) : In x (uniq l) -> In x l.
Proof.
  induction l as [|a l IH]; simpl; [tauto|].
  destruct (str_in a l); simpl; intros H; [right; auto | destruct H; auto].
Qed.

Lemma dict_get_In (d : dict) (a : string) :
  In a (map fst d) -> exists v, dict_get d a = Some v.
Proof.
  induction d as [|[k v] d IH]; simpl; [tauto|].
  intros [-> | H].
  - exists v. now rewrite String.eqb_refl.
  - destruct (String.eqb k a); [now exists v | now apply IH].
Qed.

(** Every name that [dir()] lists for a plain instance resolves. *)
Lemma instance_resolves (cls d : dict) (a : string) :
  In a (py_dir (instance cls d)) -> exists v, py_getattr (instance cls d) a = Ok v.
Proof.
  simpl. intros H. apply sorted_In, uniq_In, in_app_or in H.
  destruct (dict_get d a) as [v|] eqn:E; [now exists v|].
  destruct H as [H | H]; apply dict_get_In in H; destruct H as [v Hv].
  - congruence.
  - rewrite Hv. now exists v.
Qed.

Lemma visible_In (a : string) (attrs : list string) :
  In a (SeePy.visible attrs) -> In a attrs.
Proof. unfold SeePy.visible. intros H. apply filter_In in H. apply H. Qed.

Lemma attr_tokens_resolved (obj : pyobj) (dot : string) (attrs : list string) :
  (forall a, In a attrs -> exists v, py_getattr obj a = Ok v) ->
  Shape.attr_tokens obj dot attrs
  = map (fun a => SeePy.name dot a (Shape.resolve obj a)) attrs.
Proof.
  induction attrs as [|a attrs IH]; intros H; simpl; [reflexivity|].
  unfold Shape.resolve at 1. destruct (H a (or_introl eq_refl)) as [v ->]. simpl.
  f_equal. apply IH. intros b Hb. apply H. now right.
Qed.

Lemma see_py_default (rt : runtime) (w : world) :
  SeePy.see rt Default None None w
  = (Ok (SeePy.SeeActions_new
           (Some (map (fun a => a ++ SeePy.func
                                      (Shape.resolve (SeePy.NO_OBJ rt (Shape.rebound w (f_locals rt))) a))
                      (SeePy.visible
                         (py_dir (SeePy.NO_OBJ rt (Shape.rebound w (f_locals rt)))))))),
     Shape.rebound w (f_locals rt)).
Proof.
  cbv beta iota zeta delta [SeePy.see bind lift ret SeePy.is_NO_OBJ negb
                            SeePy.set_NO_OBJ_dict].
  fold (Shape.rebound w (f_locals rt)).
  rewrite scan_returns.
  - rewrite attr_tokens_resolved; [reflexivity|].
    intros a Ha. apply instance_resolves, visible_In, Ha.
  - intros a e Ha E. unfold SeePy.NO_OBJ, Shape.rebound in Ha, E.
    cbn [NO_OBJ_dict] in Ha, E. apply visible_In, instance_resolves in Ha.
    destruct Ha as [v Hv]. congruence.
Qed.

Lemma inspector_default_tokens (rt : runtime) (pkg : Inspector.package) (w : world) :
  Inspector.see rt pkg Default None None w
  = (Ok (Inspector.SeeResult_new
           (Some (Shape.display_tokens pkg (Inspector.Namespace rt (f_locals rt)) true
                    (Inspector.visible
                       (py_dir (Inspector.Namespace rt (f_locals rt))))))),
     w).
Proof.
  rewrite inspector_default, inspector_scan_returns.
  - simpl app. now destruct (Shape.display_tokens _ _ _ _).
  - intros a e Ha E. apply filter_In in Ha. destruct Ha as [Ha _].
    apply instance_resolves in Ha. destruct Ha as [v Hv].
    unfold Inspector.Namespace in E. congruence.
Qed.

Lemma attr_tokens_dotted (obj : pyobj) (attrs : list string) :
  Forall (fun t => Shape.starts_with_dot t = true) (Shape.attr_tokens obj "." attrs).
Proof.
  apply Forall_forall. intros t Ht. apply attr_tokens_In in Ht.
  destruct Ht as (a & v & _ & _ & ->). reflexivity.
Qed.

(** Modelled from the spec: with the [display_name] of section 4.3, a token
    of inspector.py is the bare name and its suffix in local scope, and
    carries the separator otherwise. *)
Lemma spec_display_name_prefix (mark a : string) (v : pyval) :
  (exists suffix, SpecModel.display_name mark a v true = a ++ suffix) /\
  Shape.starts_with_dot (SpecModel.display_name mark a v false) = true.
Proof.
  unfold SpecModel.display_name. split; [|reflexivity].
  eexists. reflexivity.
Qed.

(** C5, as amended.  With the target omitted, neither module runs capability
    detection: the result is exactly the list of the attribute tokens of
    the wrapper of the caller's locals, one per visible name (every name of
    the wrapper resolves), each the bare name followed by the call marker
    of its value (see.py) or the display of the name in local mode
    (inspector.py).  With a concrete target, the
    result of see.py is the detected symbols followed by attribute tokens
    that all start with the separator, and the result of inspector.py is
    the predicate names and feature symbols followed by the displays of
    the visible names in member mode. *)
Theorem C5_local_scope (rt : runtime) (pkg : Inspector.package) (w : world) :
  SeePy.see rt Default None None w
  = (Ok (SeePy.SeeActions_new
           (Some (map (fun a => a ++ SeePy.func
                                      (Shape.resolve (SeePy.NO_OBJ rt (Shape.rebound w (f_locals rt))) a))
                      (SeePy.visible
                         (py_dir (SeePy.NO_OBJ rt (Shape.rebound w (f_locals rt)))))))),
     Shape.rebound w (f_locals rt))
  /\ (forall a, In a (py_dir (SeePy.NO_OBJ rt (Shape.rebound w (f_locals rt)))) ->
                exists v, py_getattr (SeePy.NO_OBJ rt (Shape.rebound w (f_locals rt))) a
                          = Ok v)
  /\ Inspector.see rt pkg Default None None w
     = (Ok (Inspector.SeeResult_new
              (Some (Shape.display_tokens pkg (Inspector.Namespace rt (f_locals rt)) true
                       (Inspector.visible
                          (py_dir (Inspector.Namespace rt (f_locals rt))))))),
        w)
  /\ (forall o res w',
         SeePy.see rt (Target o) None None w = (Ok res, w') ->
         SeePy.as_tuple res
         = (Shape.detected rt o
            ++ Shape.attr_tokens o "." (SeePy.visible (py_dir o)))%list
         /\ Forall (fun t => Shape.starts_with_dot t = true)
                   (Shape.attr_tokens o "." (SeePy.visible (py_dir o))))
  /\ (forall o res w',
         Inspector.see rt pkg (Target o) None None w = (Ok res, w') ->
         Inspector.as_tuple res
         = (Shape.inspect_names rt o ++ Shape.feature_symbols pkg o
            ++ Shape.display_tokens pkg o false (Inspector.visible (py_dir o)))%list).
Proof.
  split; [apply see_py_default|].
  split; [intros a Ha; apply instance_resolves, Ha|].
  split; [apply inspector_default_tokens|]. split.
  - intros o res w' H. apply see_py_target_shape in H. destruct H as (_ & E & _).
    split; [exact E | apply attr_tokens_dotted].
  - intros o res w'. rewrite inspector_target.
    destruct (Inspector.scan _ _ _ _ _) as [r | e] eqn:S; [|discriminate].
    intros [= <- _]. apply inspector_scan_spec in S. subst r. simpl.
    now rewrite <- app_assoc.
Qed.

(** C5 in a session with a function [parse] and a number [count]. *)
Lemma C5_local_scope_witness :
  SeePy.see Sample.rt Default None None Sample.w0
  = (Ok (SeePy.mkSeeActions ["count"; "parse()"]),
     Shape.rebound Sample.w0 (f_locals Sample.rt))
  /\ Inspector.see Sample.rt Sample.pkg Default None None Sample.w0
     = (Ok (Inspector.mkSeeResult ["count"; "parse()"]), Sample.w0).
Proof.
  split.
  - apply (proj1 (C5_local_scope Sample.rt Sample.pkg Sample.w0)).
  - apply (proj1 (proj2 (proj2 (C5_local_scope Sample.rt Sample.pkg Sample.w0)))).
Defined.

(** C5 as stated fails: in a session whose caller has defined a
    function named [abs], the result with the target omitted holds the
    token [abs()], which is a capability symbol of the registry. *)
Lemma C5_local_token_spells_symbol :
  In "abs()" (map snd (SeePy.SYMBOLS Sample.rt_abs))
  /\ fst (SeePy.see Sample.rt_abs Default None None Sample.w0)
     = Ok (SeePy.mkSeeActions ["abs()"])
  /\ fst (Inspector.see Sample.rt_abs (SpecModel.package Sample.rt_abs 3 "?" 80)
                        Default None None Sample.w0)
     = Ok (Inspector.mkSeeResult ["abs()"]).
Proof. repeat split; vm_compute; tauto. Qed.

(** ** The kinds of tokens *)

Lemma detected_symbol (rt : runtime) (o : pyobj) (t : string) :
  In t (Shape.detected rt o) -> In t (map snd (SeePy.SYMBOLS rt)).
Proof.
  intros H. apply detected_In in H. destruct H as (var & H & _).
  apply in_map_iff. now exists (var, t).
Qed.

Lemma see_py_token_kinds (rt : runtime) (a : arg) (w w' : world)
      (res : SeePy.SeeActions) (t : string) :
  SeePy.see rt a None None w = (Ok res, w') ->
  In t (SeePy.as_tuple res) ->
  In t (map snd (SeePy.SYMBOLS rt)) \/
  exists name v, In name (SeePy.visible (py_dir (Shape.scanned_py rt w a))) /\
                 py_getattr (Shape.scanned_py rt w a) name = Ok v /\
                 t = Shape.dot_of a ++ name ++ SeePy.func v.
Proof.
  destruct a as [|o]; simpl Shape.scanned_py; simpl Shape.dot_of.
  - rewrite see_py_default. intros H. apply ok_pair_inv in H. destruct H as [<- _].
    rewrite SeeActions_new_Some.
    intros Ht. right. apply in_map_iff in Ht. destruct Ht as (name & <- & Hn).
    exists name.
    destruct (instance_resolves (SeePy.LocalsProxy_class rt) (f_locals rt) name)
      as [v Hv]; [apply visible_In, Hn|].
    exists v. split; [exact Hn|]. split; [exact Hv|].
    unfold Shape.resolve, SeePy.NO_OBJ, Shape.rebound. cbn [NO_OBJ_dict].
    now rewrite Hv.
  - intros H Ht. apply see_py_target_shape in H. destruct H as (_ & E & _).
    rewrite E in Ht. apply in_app_or in Ht. destruct Ht as [Ht | Ht].
    + left. eapply detected_symbol, Ht.
    + right. apply attr_tokens_In in Ht. destruct Ht as (name & v & H1 & H2 & ->).
      now exists name, v.
Qed.

Lemma inspector_token_kinds (rt : runtime) (pkg : Inspector.package) (a : arg)
      (w w' : world) (res : Inspector.SeeResult) (t : string) :
  Inspector.see rt pkg a None None w = (Ok res, w') ->
  In t (Inspector.as_tuple res) ->
  (Shape.local_of a = false /\ In t (filter startswith_is (inspect_dir rt)) /\
   py_inspect (Shape.scanned rt a) t = true) \/
  (Shape.local_of a = false /\ In t (map Inspector.symbol (Inspector.FEATURES pkg))) \/
  exists name, In name (Inspector.visible (py_dir (Shape.scanned rt a))) /\
               t = Inspector.display_name pkg name
                     (Shape.resolve (Shape.scanned rt a) name) (Shape.local_of a).
Proof.
  destruct a as [|o]; simpl Shape.scanned; simpl Shape.local_of.
  - rewrite inspector_default_tokens. intros H. apply ok_pair_inv in H.
    destruct H as [<- _]. rewrite SeeResult_new_Some.
    intros Ht. right. right. apply in_map_iff in Ht. destruct Ht as (name & <- & Hn).
    now exists name.
  - rewrite inspector_target.
    destruct (Inspector.scan _ _ _ _ _) as [r | e] eqn:S; [|discriminate].
    intros [= <- _]. apply inspector_scan_spec in S. subst r. simpl.
    rewrite !in_app_iff. intros [[Ht | Ht] | Ht].
    + left. unfold Shape.inspect_names in Ht. apply filter_In in Ht. tauto.
    + right. left. split; [reflexivity|].
      unfold Shape.feature_symbols in Ht. apply in_map_iff in Ht.
      destruct Ht as (f & <- & Hf). apply filter_In in Hf. apply in_map, Hf.
    + right. right. apply in_map_iff in Ht. destruct Ht as (name & <- & Hn).
      now exists name.
Qed.

(** C6, as amended.  Every token of a result of see.py, filtered or not, is
    a symbol of the registry or the token of a visible attribute that
    resolves: the separator (none in local scope), the name, the call
    marker.  Every token of an unfiltered result of inspector.py is, for a
    concrete target, the name of a predicate of the [inspect] module that
    holds of the object or the symbol of a feature, or else the display of
    a visible attribute. *)
Theorem C6_token_kinds (rt : runtime) (pkg : Inspector.package) (a : arg) (w : world) :
  (forall pattern r res w' t,
      SeePy.see rt a pattern r w = (Ok res, w') ->
      In t (SeePy.as_tuple res) ->
      In t (map snd (SeePy.SYMBOLS rt)) \/
      exists name v, In name (SeePy.visible (py_dir (Shape.scanned_py rt w a))) /\
                     py_getattr (Shape.scanned_py rt w a) name = Ok v /\
                     t = Shape.dot_of a ++ name ++ SeePy.func v)
  /\ (forall res w' t,
         Inspector.see rt pkg a None None w = (Ok res, w') ->
         In t (Inspector.as_tuple res) ->
         (Shape.local_of a = false /\ In t (filter startswith_is (inspect_dir rt)) /\
          py_inspect (Shape.scanned rt a) t = true) \/
         (Shape.local_of a = false /\
          In t (map Inspector.symbol (Inspector.FEATURES pkg))) \/
         exists name, In name (Inspector.visible (py_dir (Shape.scanned rt a))) /\
                      t = Inspector.display_name pkg name
                            (Shape.resolve (Shape.scanned rt a) name)
                            (Shape.local_of a)).
Proof.
  split.
  - intros pattern r res w' t H Ht. apply see_py_filtered_incl in H.
    destruct H as (res0 & w1 & H0 & Hincl).
    eapply see_py_token_kinds; [exact H0 | apply Hincl, Ht].
  - intros res w' t. apply inspector_token_kinds.
Qed.

(** C6 on a class object: [isclass] is the name of a predicate that holds. *)
Lemma C6_token_kinds_witness :
  (Shape.local_of (Target Sample.a_class) = false /\
   In "isclass" (filter startswith_is (inspect_dir Sample.rt)) /\
   py_inspect (Shape.scanned Sample.rt (Target Sample.a_class)) "isclass" = true) \/
  (Shape.local_of (Target Sample.a_class) = false /\
   In "isclass" (map Inspector.symbol (Inspector.FEATURES Sample.pkg))) \/
  exists name,
    In name (Inspector.visible (py_dir (Shape.scanned Sample.rt (Target Sample.a_class)))) /\
    "isclass" = Inspector.display_name Sample.pkg name
                  (Shape.resolve (Shape.scanned Sample.rt (Target Sample.a_class)) name)
                  (Shape.local_of (Target Sample.a_class)).
Proof.
  apply (proj2 (C6_token_kinds Sample.rt Sample.pkg (Target Sample.a_class) Sample.w0)
               (Inspector.mkSeeResult ["isclass"; "()"; ".mro()"]) Sample.w0 "isclass").
  - reflexivity.
  - simpl. now left.
Defined.

(** C6 as stated fails: inspector.py on a class object emits the
    token [isclass], which is no symbol of the registry and no attribute
    token (an attribute token of a concrete target starts with the
    separator). *)
Lemma C6_predicate_name_is_a_token :
  fst (Inspector.see Sample.rt Sample.pkg (Target Sample.a_class) None None Sample.w0)
  = Ok (Inspector.mkSeeResult ["isclass"; "()"; ".mro()"])
  /\ ~ In "isclass" (map Inspector.symbol (Inspector.FEATURES Sample.pkg))
  /\ ~ In "isclass" (map snd (SeePy.SYMBOLS Sample.rt))
  /\ (forall name v, Inspector.display_name Sample.pkg name v false <> "isclass").
Proof.
  split; [reflexivity|]. split; [|split].
  - apply str_in_false. reflexivity.
  - apply str_in_false. reflexivity.
  - intros name v H. discriminate H.
Qed.

(** ** The result as a tuple *)

Lemma tuple_eq_iff (t1 t2 : list string) : Tuple.eq t1 t2 = true <-> t1 = t2.
Proof.
  revert t2. induction t1 as [|a t1 IH]; intros [|b t2]; simpl.
  - split; reflexivity.
  - split; discriminate.
  - split; discriminate.
  - rewrite andb_true_iff, String.eqb_eq, IH. split.
    + intros [-> ->]. reflexivity.
    + intros [= -> ->]. auto.
Qed.

Lemma tuple_getitem_nth (t : list string) (n : nat) :
  Tuple.getitem t (Z.of_nat n)
  = match nth_error t n with Some s => Ok s | None => Raise IndexError end.
Proof.
  unfold Tuple.getitem. cbv zeta.
  assert (E0 : (Z.of_nat n <? 0)%Z = false) by (apply Z.ltb_ge; lia).
  rewrite !E0. simpl orb. rewrite Nat2Z.id.
  destruct (Z.leb_spec (Z.of_nat (List.length t)) (Z.of_nat n)) as [Hout | Hin].
  - assert (E : nth_error t n = None) by (apply nth_error_None; lia).
    rewrite E. reflexivity.
  - reflexivity.
Qed.

(** C7.  The value a call returns is the tuple of the tokens it was built
    from: the constructor keeps the tokens as they are, and indexing
    (from either end), length, iteration and equality are those of that
    tuple, in both modules; two results are equal exactly when they hold
    the same tokens in the same order.  The display is computed by a
    function from the tuple to a string, which has nothing of the tuple to
    write to. *)
Theorem C7_result_is_the_token_tuple (tokens others : list string) (i : Z) (n : nat) :
  (SeePy.as_tuple (SeePy.SeeActions_new (Some tokens)) = tokens
   /\ SeePy.SeeActions_getitem (SeePy.SeeActions_new (Some tokens)) i
      = Tuple.getitem tokens i
   /\ SeePy.SeeActions_getitem (SeePy.SeeActions_new (Some tokens)) (Z.of_nat n)
      = match nth_error tokens n with Some s => Ok s | None => Raise IndexError end
   /\ SeePy.SeeActions_len (SeePy.SeeActions_new (Some tokens)) = List.length tokens
   /\ SeePy.SeeActions_iter (SeePy.SeeActions_new (Some tokens)) = tokens
   /\ (SeePy.SeeActions_eq (SeePy.SeeActions_new (Some tokens))
                           (SeePy.SeeActions_new (Some others)) = true
       <-> tokens = others))
  /\ (Inspector.as_tuple (Inspector.SeeResult_new (Some tokens)) = tokens
      /\ Inspector.SeeResult_getitem (Inspector.SeeResult_new (Some tokens)) i
         = Tuple.getitem tokens i
      /\ Inspector.SeeResult_getitem (Inspector.SeeResult_new (Some tokens)) (Z.of_nat n)
         = match nth_error tokens n with Some s => Ok s | None => Raise IndexError end
      /\ Inspector.SeeResult_len (Inspector.SeeResult_new (Some tokens))
         = List.length tokens
      /\ Inspector.SeeResult_iter (Inspector.SeeResult_new (Some tokens)) = tokens
      /\ (Inspector.SeeResult_eq (Inspector.SeeResult_new (Some tokens))
                                 (Inspector.SeeResult_new (Some others)) = true
          <-> tokens = others)).
Proof.
  unfold SeePy.SeeActions_getitem, SeePy.SeeActions_len, SeePy.SeeActions_iter,
    SeePy.SeeActions_eq, Inspector.SeeResult_getitem, Inspector.SeeResult_len,
    Inspector.SeeResult_iter, Inspector.SeeResult_eq, Tuple.len, Tuple.iter.
  rewrite !SeeActions_new_Some, !SeeResult_new_Some.
  repeat split; try reflexivity;
    try apply tuple_getitem_nth; try apply tuple_eq_iff.
Qed.

(** ** The display *)

Lemma length_append (a b : string) :
  String.length (a ++ b) = String.length a + String.length b.
Proof. induction a as [|c a IH]; simpl; [reflexivity | now rewrite IH]. Qed.

Lemma length_spaces (n : nat) : String.length (Inspector.spaces n) = n.
Proof. induction n as [|n IH]; simpl; [reflexivity | now rewrite IH]. Qed.

Lemma length_le_max (tok : string) (tokens : list string) :
  In tok tokens ->
  String.length tok <= fold_right Nat.max 0 (map String.length tokens).
Proof.
  induction tokens as [|t tokens IH]; simpl; [tauto|].
  intros [-> | H]; [lia | specialize (IH H); lia].
Qed.

(** Modelled from the spec: with the [column_width] and [justify_token] of
    section 4.5, the display of inspector.py wraps, at the width of the
    terminal, the tokens padded to one width, the longest length plus the
    padding, behind an indent as long as the prompt, or of four blanks
    when there is no prompt. *)
Lemma inspector_repr_columns (rt : runtime) (padding width : nat) (mark : string)
      (tokens : list string) :
  Inspector.SeeResult_repr rt (SpecModel.package rt padding mark width)
                           (Inspector.SeeResult_new (Some tokens))
  = textwrap_fill rt
      (join "" (map (fun tok => SpecModel.justify_token tok
                                  (SpecModel.column_width padding tokens)) tokens))
      width
      (Inspector.repr_indent rt (SpecModel.package rt padding mark width))
      (Inspector.repr_indent rt (SpecModel.package rt padding mark width))
  /\ (forall tok, In tok tokens ->
        String.length (SpecModel.justify_token tok (SpecModel.column_width padding tokens))
        = fold_right Nat.max 0 (map String.length tokens) + padding)
  /\ String.length (Inspector.repr_indent rt (SpecModel.package rt padding mark width))
     = match sys_ps1 rt with
       | Some ps1 => if String.eqb ps1 "" then 4 else String.length ps1
       | None => 4
       end.
Proof.
  split; [|split].
  - unfold Inspector.SeeResult_repr. now rewrite SeeResult_new_Some.
  - intros tok H. apply length_le_max in H.
    unfold SpecModel.justify_token, SpecModel.column_width.
    rewrite length_append, length_spaces. lia.
  - unfold Inspector.repr_indent. destruct (sys_ps1 rt) as [ps1|]; [|reflexivity].
    destruct (String.eqb ps1 ""); [reflexivity|]. simpl.
    destruct (SeePy.PY_300 rt); apply length_spaces.
Qed.

(** C8.  The display of see.py on the tokens [a] and [bbbb]: the text handed
    to [textwrap.fill] is the two tokens as they are, three blanks between
    them, the width is the constant 78 and both indents are two blanks,
    whatever the prompt and the terminal.  The specification asks for
    tokens padded to one column width, the width of the terminal and an
    indent as long as the prompt. *)
Theorem C8_see_py_repr_is_not_in_columns (rt : runtime) :
  SeePy.SeeActions_repr rt (SeePy.SeeActions_new (Some ["a"; "bbbb"]))
  = textwrap_fill rt "a   bbbb" 78 "  " "  "
  /\ forall tokens ps1,
       SeePy.SeeActions_repr (Shape.with_ps1 rt ps1)
                             (SeePy.SeeActions_new (Some tokens))
       = textwrap_fill rt (join "   " tokens) 78 "  " "  ".
Proof.
  split; [reflexivity|]. intros tokens ps1.
  unfold SeePy.SeeActions_repr. now rewrite SeeActions_new_Some.
Qed.

(** ** What a call leaves behind *)

(** inspector.py builds the wrapper of the caller's locals anew and writes
    to nothing: a call without filters returns the world it was given. *)
Lemma inspector_leaves_world (rt : runtime) (pkg : Inspector.package) (a : arg)
      (w : world) :
  snd (Inspector.see rt pkg a None None w) = w.
Proof.
  destruct a as [|o].
  - now rewrite inspector_default.
  - now rewrite inspector_target.
Qed.

(** The filters of see.py write to the record of library calls only. *)
Lemma filter_stage_keeps_dicts (rt : runtime) (pattern r : option string)
      (actions : list string) (w : world) :
  NO_OBJ_dict (snd (Shape.filter_stage rt pattern r actions w)) = NO_OBJ_dict w /\
  DEFAULT_ARG_dict (snd (Shape.filter_stage rt pattern r actions w))
  = DEFAULT_ARG_dict w.
Proof.
  unfold Shape.filter_stage, bind.
  destruct pattern as [p|], r as [q|]; unfold ret;
    rewrite ?fn_filter_spec, ?regex_filter_spec; cbv beta iota;
    try destruct (re_valid rt q); split; reflexivity.
Qed.

(** C9.  see.py with the target omitted binds the instance dictionary of
    the module-level object [_NO_OBJ] to the caller's locals and leaves it
    bound when it returns: in a session with the locals [parse] and
    [count], the dictionary of [_NO_OBJ], empty before the call, holds
    both after it.  The specification asks for a wrapper created for the
    call and for no write to a module-level object. *)
Theorem C9_see_py_rebinds_NO_OBJ (rt : runtime) (pattern r : option string) (w : world) :
  NO_OBJ_dict (snd (SeePy.see rt Default pattern r w)) = f_locals rt
  /\ NO_OBJ_dict Sample.w0 = []
  /\ NO_OBJ_dict (snd (SeePy.see Sample.rt Default None None Sample.w0))
     = [ ("parse", PyObject "function" true); ("count", PyObject "int" false) ].
Proof.
  split; [|split; reflexivity].
  rewrite see_py_filtered, see_py_default.
  apply (filter_stage_keeps_dicts rt pattern r).
Qed.

(** ** The default argument *)

Lemma detect_indep (rt : runtime) (locals : dict) (o : pyobj) (truth : bool)
      (attrs : list string) (symbols : list (string * string)) (actions : list string) :
  SeePy.detect (Shape.with_locals rt locals) (Shape.with_truth o truth)
               attrs symbols actions
  = SeePy.detect rt o attrs symbols actions.
Proof.
  revert actions. induction symbols as [|[var symbol] rest IH]; intros actions;
    simpl; [reflexivity|].
  change (SeePy.doc_first_char (Shape.with_locals rt locals) (Shape.with_truth o truth))
    with (SeePy.doc_first_char rt o).
  rewrite !IH. reflexivity.
Qed.

Lemma scan_indep (o : pyobj) (truth : bool) (dot : string)
      (attrs actions : list string) :
  SeePy.scan (Shape.with_truth o truth) dot attrs actions
  = SeePy.scan o dot attrs actions.
Proof.
  revert actions. induction attrs as [|a attrs IH]; intros actions; simpl;
    [reflexivity|].
  change (py_getattr (Shape.with_truth o truth) a) with (py_getattr o a).
  destruct (py_getattr o a) as [prop | e]; rewrite ?IH; reflexivity.
Qed.

Lemma see_py_target_indep (rt : runtime) (locals : dict) (o : pyobj) (truth : bool)
      (pattern r : option string) (w : world) :
  SeePy.see (Shape.with_locals rt locals) (Target (Shape.with_truth o truth)) pattern r w
  = SeePy.see rt (Target o) pattern r w.
Proof.
  rewrite (see_py_filtered (Shape.with_locals rt locals)), (see_py_filtered rt).
  rewrite !see_py_target.
  change (SeePy.SYMBOLS (Shape.with_locals rt locals)) with (SeePy.SYMBOLS rt).
  change (py_dir (Shape.with_truth o truth)) with (py_dir o).
  rewrite detect_indep.
  destruct (SeePy.detect rt o (py_dir o) (SeePy.SYMBOLS rt) []) as [syms | e];
    [|reflexivity].
  rewrite scan_indep. reflexivity.
Qed.

(** C10.  Local scope is chosen by the identity test alone: any object
    other than the default-argument object is inspected itself.  For such a
    target the call does not depend on the caller's locals, in both
    modules, nor, in see.py, on the truth value of the target; a call of
    see.py that returns has produced the symbols detected on the target
    and the tokens of its own attributes and has left [_NO_OBJ] alone, and
    a call of inspector.py the predicate names, feature symbols and
    attribute displays of the target. *)
Theorem C10_explicit_target_is_inspected (rt : runtime) (pkg : Inspector.package)
        (o : pyobj) (pattern r : option string) (w : world)
        (locals : dict) (truth : bool) :
  SeePy.is_NO_OBJ Default = true
  /\ SeePy.is_NO_OBJ (Target (Shape.with_truth o truth)) = false
  /\ Inspector.is_DEFAULT_ARG Default = true
  /\ Inspector.is_DEFAULT_ARG (Target (Shape.with_truth o truth)) = false
  /\ SeePy.see (Shape.with_locals rt locals) (Target (Shape.with_truth o truth)) pattern r w
     = SeePy.see rt (Target o) pattern r w
  /\ Inspector.see (Shape.with_locals rt locals) pkg (Target o) pattern r w
     = Inspector.see rt pkg (Target o) pattern r w
  /\ (forall res w',
         SeePy.see rt (Target o) None None w = (Ok res, w') ->
         SeePy.as_tuple res
         = (Shape.detected rt o
            ++ Shape.attr_tokens o "." (SeePy.visible (py_dir o)))%list
         /\ w' = w)
  /\ (forall res w',
         Inspector.see rt pkg (Target o) None None w = (Ok res, w') ->
         Inspector.as_tuple res
         = (Shape.inspect_names rt o ++ Shape.feature_symbols pkg o
            ++ Shape.display_tokens pkg o false (Inspector.visible (py_dir o)))%list
         /\ w' = w).
Proof.
  do 4 (split; [reflexivity|]).
  split; [apply see_py_target_indep|]. split; [reflexivity|]. split.
  - intros res w' H. apply see_py_target_shape in H. tauto.
  - intros res w'. rewrite inspector_target.
    destruct (Inspector.scan _ _ _ _ _) as [x | e] eqn:S; [|discriminate].
    intros H. apply ok_pair_inv in H. destruct H as [<- <-].
    apply inspector_scan_spec in S. subst x. simpl.
    now rewrite <- app_assoc.
Qed.

(** C10 on [None], [0] and [[]]: each is inspected itself. *)
Lemma C10_explicit_target_is_inspected_witness :
  SeePy.see Sample.rt (Target Sample.none_) None None Sample.w0
  = (Ok (SeePy.mkSeeActions ["bool()"; "repr()"]), Sample.w0)
  /\ SeePy.see Sample.rt (Target Sample.zero) None None Sample.w0
     = (Ok (SeePy.mkSeeActions
              ["+"; "abs()"; "bool()"; "help()"; "int()"; ".bit_length()"; ".real"]),
        Sample.w0)
  /\ SeePy.as_tuple
       (SeePy.mkSeeActions ["[]"; "help()"; "len()"; ".append()"; ".pop()"])
     = (Shape.detected Sample.rt Sample.empty_list
        ++ Shape.attr_tokens Sample.empty_list "."
             (SeePy.visible (py_dir Sample.empty_list)))%list
  /\ py_truth Sample.none_ = false /\ py_truth Sample.zero = false
  /\ py_truth Sample.empty_list = false.
Proof.
  split; [reflexivity|]. split; [reflexivity|]. split; [|repeat split].
  apply (proj1 (proj2 (proj2 (proj2 (proj2 (proj2 (proj2
           (C10_explicit_target_is_inspected Sample.rt Sample.pkg Sample.empty_list
              None None Sample.w0 [] false)))))))
           (SeePy.mkSeeActions ["[]"; "help()"; "len()"; ".append()"; ".pop()"])
           Sample.w0).
  reflexivity.
Defined.
